(** * Litra: the command encoder, the report decoder and the device state

    A shallow embedding of [src/lib/litra.py].  Python integers are [Z],
    byte buffers (the lists of ints the code builds and the [array('B')]
    reports it reads) are [list Z], the module-level dicts are [gmap]s whose
    failed lookup is [KeyError], and the methods of [class Litra] are
    computations in a state-and-exception monad over the object's fields.
    The USB device is a record of what it answers to each call, and the
    methods that talk to it give the calls they make, in order, with their
    outcome.  Of console output ([print]) only what can raise is modelled:
    the conversion of a value to text in a message. *)

From Stdlib Require Import ZArith Lia.
From Stdlib Require Import Floats.PrimFloat Floats.SpecFloat Floats.FloatOps.
From stdpp Require Import gmap strings list fin_maps.

#[local] Open Scope Z_scope.
#[local] Set Warnings "-clear-no-such-hyp".

(** ** Python values, exceptions and results *)

Module Py.

(** The values that the properties are given here: [None], a [bool], an
    [int], a [float] (IEEE binary64, as in CPython) or a [str].  Values of
    other types (containers, other kinds of numbers) are outside the
    model. *)
Inductive pyval : Type :=
| PyNone
| PyBool (b : bool)
| PyInt (z : Z)
| PyFloat (f : float)
| PyStr (s : string).

Inductive exn : Type :=
| KeyError
| IndexError
| RuntimeError
| ValueError
| TypeError
| OverflowError
| NameError
| USBError.

Inductive result (A : Type) : Type :=
| Ok (a : A)
| Raise (e : exn).
#[global] Arguments Ok {A} a.
#[global] Arguments Raise {A} e.

#[global] Instance result_ret : MRet result := λ A a, Ok a.
#[global] Instance result_bind : MBind result := λ A B k m,
  match m with
  | Ok a => k a
  | Raise e => Raise e
  end.

(** [d[k]] on a dict. *)
Definition getitem `{Countable K} {V} (d : gmap K V) (k : K) : result V :=
  match d !! k with
  | Some v => Ok v
  | None => Raise KeyError
  end.

(** [int.bit_length()]: the bits of the absolute value, 0 for 0. *)
Definition bit_length (value : Z) : Z :=
  if decide (value = 0) then 0 else Z.log2 (Z.abs value) + 1.

(** [math.ceil(n / d)] for ints [n] and a positive int [d].  The source
    divides in floating point; for the power of two [d = 8] and any
    [n < 2^53] that quotient is exact, so the result is the ceiling of
    the rational. *)
Definition ceil_div (n d : Z) : Z := - ((- n) / d).

(** The [n] low-order base-256 digits of [value], most significant first. *)
Fixpoint be_bytes (n : nat) (value : Z) : list Z :=
  match n with
  | O => []
  | S n' => Z.land (Z.shiftr value (8 * Z.of_nat n')) 255 :: be_bytes n' value
  end.

(** [value.to_bytes(length=len)]: byteorder ['big'], unsigned. *)
Definition to_bytes (value : Z) (len : Z) : result (list Z) :=
  if decide (len < 0) then Raise ValueError
  else if decide (value < 0) then Raise OverflowError
  else if decide (2 ^ (8 * len) ≤ value) then Raise OverflowError
  else Ok (be_bytes (Z.to_nat len) value).

(** [int.from_bytes(bs)] on a list of ints: byteorder ['big'], unsigned;
    an item outside [range(256)] is a [ValueError]. *)
Definition from_bytes (bs : list Z) : result Z :=
  if decide (Forall (λ b, 0 ≤ b < 256) bs)
  then Ok (foldl (λ acc b, acc * 256 + b) 0 bs)
  else Raise ValueError.

(** [l[i:j]] for non-negative literal bounds. *)
Definition slice {A} (l : list A) (i j : nat) : list A :=
  take (j - i) (drop i l).

(** [l.pop(0)]: the first item and the list left behind. *)
Definition pop0 {A} (l : list A) : result (A * list A) :=
  match l with
  | [] => Raise IndexError
  | x :: l' => Ok (x, l')
  end.

(** [l[0]]. *)
Definition item0 {A} (l : list A) : result A :=
  match l with
  | [] => Raise IndexError
  | x :: _ => Ok x
  end.

(** [isinstance(v, bool)] and [isinstance(v, int)]; [bool] is a subclass
    of [int]. *)
Definition isinstance_bool (v : pyval) : bool :=
  match v with PyBool _ => true | _ => false end.

Definition isinstance_int (v : pyval) : bool :=
  match v with PyBool _ | PyInt _ => true | _ => false end.

(** The exact order between an int and a float, as CPython compares them:
    [None] when the float is a NaN.  A finite float is [±m * 2^e]. *)
Definition compare_int_float (z : Z) (f : float) : option comparison :=
  match Prim2SF f with
  | S754_nan => None
  | S754_infinity neg => Some (if neg then Gt else Lt)
  | S754_zero _ => Some (z ?= 0)
  | S754_finite neg m e =>
      let mz := if neg then Z.neg m else Z.pos m in
      Some (if decide (0 ≤ e) then z ?= mz * 2 ^ e else z * 2 ^ (- e) ?= mz)
  end.

(** A number is an int (a bool counts as 0 or 1) or a float. *)
Inductive number : Type :=
| NInt (z : Z)
| NFloat (f : float).

Definition as_number (v : pyval) : option number :=
  match v with
  | PyBool b => Some (NInt (if b then 1 else 0))
  | PyInt z => Some (NInt z)
  | PyFloat f => Some (NFloat f)
  | PyNone | PyStr _ => None
  end.

(** [a <= b] when at least one side is a number: a [TypeError] when the
    other side is [None] or a [str]. *)
Definition le (a b : pyval) : result bool :=
  match as_number a, as_number b with
  | Some (NInt x), Some (NInt y) => Ok (bool_decide (x ≤ y))
  | Some (NInt x), Some (NFloat g) =>
      Ok match compare_int_float x g with
         | Some Lt | Some Eq => true
         | _ => false
         end
  | Some (NFloat f), Some (NInt y) =>
      Ok match compare_int_float y f with
         | Some Gt | Some Eq => true
         | _ => false
         end
  | Some (NFloat f), Some (NFloat g) => Ok (PrimFloat.leb f g)
  | _, _ => Raise TypeError
  end.

(** The chained comparison [lo <= v <= hi]: the second test runs only
    when the first is true. *)
Definition between (lo : Z) (v : pyval) (hi : Z) : result bool :=
  c ← le (PyInt lo) v;
  if c : bool then le v (PyInt hi) else Ok false.

(** [sys.int_info.default_max_str_digits]: the interpreter's limit on
    the decimal digits of an int that is converted to text.  (The source
    calls [to_bytes] and [int.from_bytes] without a byte order, so it
    runs on the versions of Python that have the limit.) *)
Definition int_max_str_digits : Z := 4300.
#[global] Opaque int_max_str_digits.

(** [f"{v}"]: whether the conversion of [v] to text returns.  An int
    with more than [int_max_str_digits] digits, sign apart, raises
    [ValueError]; [None], bools, floats and strings always convert.  The
    text itself goes to [print] and is not modelled. *)
Definition format_value (v : pyval) : result unit :=
  match v with
  | PyInt z =>
      if decide (10 ^ int_max_str_digits ≤ Z.abs z) then Raise ValueError
      else Ok tt
  | PyNone | PyBool _ | PyFloat _ | PyStr _ => Ok tt
  end.

End Py.
Import Py.

(** ** Module constants *)

Definition LOGITECH_VENDOR_ID : Z := 0x046d.

Definition LIGHT_OFF : Z := 0x00.
Definition LIGHT_ON : Z := 0x01.
Definition TIMEOUT_MS : Z := 3000.
Definition MIN_BRIGHTNESS : Z := 0x14.
Definition MAX_BRIGHTNESS : Z := 0xfa.

Definition LITRA_COMMAND_BUFFER_PREFIX : list Z := [0x11; 0xff; 0x04].
Definition LITRA_COMMAND_BUFFER_LENGTH : Z := 20.

Definition LITRA_COMMANDS : gmap string Z :=
  <["power_get" := 0x1b]> (<["power" := 0x1c]>
  (<["brightness" := 0x4c]> (<["temperature" := 0x9c]> ∅))).

Record product : Type := {
  name : string;
  endpoint : Z;
  buffer_length : Z;
}.

Definition LITRA_PRODUCTS : gmap Z product :=
  <[0xc900 := {| name := "Glow"; endpoint := 0x02; buffer_length := 64 |}]>
  (<[0xc901 := {| name := "Beam"; endpoint := 0x01; buffer_length := 32 |}]> ∅).

Definition INPUT_CODES : gmap Z string :=
  <[0 := "power"]> (<[16 := "brightness"]> (<[32 := "temperature"]> ∅)).

(** ** Field validators *)

Definition __validate_power (input_data : list Z) : result pyval :=
  input_value ← item0 input_data;
  if decide (input_value ≠ 0 ∧ input_value ≠ 1) then Raise RuntimeError
  else Ok (PyBool (bool_decide (input_value ≠ 0))).

Definition __validate_brightness (input_data : list Z) : result pyval :=
  let input_value := slice input_data 0 2 in
  brightness ← from_bytes input_value;
  Ok (PyInt brightness).

Definition __validate_temperature (input_data : list Z) : result pyval :=
  let input_value := slice input_data 0 2 in
  color_temperature ← from_bytes input_value;
  Ok (PyInt color_temperature).

Definition INPUT_VALIDATION : gmap Z (list Z → result pyval) :=
  <[0 := __validate_power]> (<[16 := __validate_brightness]>
  (<[32 := __validate_temperature]> ∅)).

(** ** The command encoder *)

(** Lines 68-69 of [litra_command]: the value field. *)
Definition value_bytes (value : Z) : result (list Z) :=
  let value_len := ceil_div (bit_length value) 8 in
  to_bytes value value_len.

(** [[0x00] * n] is empty for a negative [n], as [Z.to_nat] is 0 there. *)
Definition litra_command (command : string) (value : Z) : result (list Z) :=
  command_code ← getitem LITRA_COMMANDS command;
  value_bytes ← value_bytes value;
  let output := LITRA_COMMAND_BUFFER_PREFIX ++ [command_code] ++ value_bytes in
  let buffered_output :=
    output ++ replicate (Z.to_nat (LITRA_COMMAND_BUFFER_LENGTH - Z.of_nat (length output))) 0x00 in
  Ok buffered_output.


(** ** The USB device *)

(** A [usb.core.Device] as the session sees it: its two ids, and what it
    answers to each call that a method makes of it (no method makes the
    same call twice).  An answer is a value or an exception. *)
Record usb_device : Type := {
  dev_idVendor : Z;
  dev_idProduct : Z;
  dev_is_kernel_driver_active : result bool;
  dev_detach_kernel_driver : result unit;
  dev_set_configuration : result unit;
  dev_attach_kernel_driver : result unit;
  dev_dispose_resources : result unit;
  dev_write : result Z;
  dev_read : result (list Z);
}.

Inductive usb_call : Type :=
| UsbIsKernelDriverActive (interface : Z)
| UsbDetachKernelDriver (interface : Z)
| UsbSetConfiguration
| UsbWrite (endpoint : Z) (data : list Z) (timeout : Z)
| UsbRead (endpoint : Z) (size : Z)
| UsbDisposeResources
| UsbAttachKernelDriver (interface : Z).

(** A method that talks to the transport: the calls it makes, each with
    the device it is made of, in the order it makes them, and what the
    method returns or raises.  A call that raises ends the method. *)
Definition T (A : Type) : Type := list (usb_device * usb_call) * result A.

#[global] Instance T_ret : MRet T := λ A a, ([], Ok a).
#[global] Instance T_bind : MBind T := λ A B k m,
  match m with
  | (calls, Ok a) => let '(calls', r) := k a in (calls ++ calls', r)
  | (calls, Raise e) => (calls, Raise e)
  end.

Definition T_lift {A} (r : result A) : T A := ([], r).

(** One call of device [d], with the answer that [d] gives to it. *)
Definition usb {A} (d : usb_device) (c : usb_call) (answer : result A) : T A :=
  ([(d, c)], answer).

(** The module-level name [dev].  It is the variable of the [for] loop at
    the end of the module, so it is unbound until that loop has found a
    device, and reading it then is a [NameError]. *)
Definition global_dev (dev : option usb_device) : T usb_device :=
  match dev with
  | Some d => mret d
  | None => T_lift (Raise NameError)
  end.

(** ** The session object *)

(** The attributes of a [Litra] instance. *)
Record Litra : Type := {
  device : usb_device;
  idVendor : Z;
  idProduct : Z;
  reattach : bool;
  self_endpoint : Z;
  self_buffer_length : Z;
  __power : pyval;
  __temperature : pyval;
  __brightness : pyval;
}.

Definition set___power (v : pyval) (self : Litra) : Litra :=
  {| device := device self;
     idVendor := idVendor self; idProduct := idProduct self;
     reattach := reattach self; self_endpoint := self_endpoint self;
     self_buffer_length := self_buffer_length self;
     __power := v; __temperature := __temperature self;
     __brightness := __brightness self |}.

Definition set___temperature (v : pyval) (self : Litra) : Litra :=
  {| device := device self;
     idVendor := idVendor self; idProduct := idProduct self;
     reattach := reattach self; self_endpoint := self_endpoint self;
     self_buffer_length := self_buffer_length self;
     __power := __power self; __temperature := v;
     __brightness := __brightness self |}.

Definition set___brightness (v : pyval) (self : Litra) : Litra :=
  {| device := device self;
     idVendor := idVendor self; idProduct := idProduct self;
     reattach := reattach self; self_endpoint := self_endpoint self;
     self_buffer_length := self_buffer_length self;
     __power := __power self; __temperature := __temperature self;
     __brightness := v |}.

(** A method body: it runs on the object, may change it, and either
    returns or raises; what it changed before raising stays changed. *)
Definition M (A : Type) : Type := Litra → Litra * result A.

#[global] Instance M_ret : MRet M := λ A a self, (self, Ok a).
#[global] Instance M_bind : MBind M := λ A B k m self,
  match m self with
  | (self', Ok a) => k a self'
  | (self', Raise e) => (self', Raise e)
  end.

Definition raise {A} (e : exn) : M A := λ self, (self, Raise e).
Definition lift {A} (r : result A) : M A := λ self, (self, r).
Definition assign (upd : Litra → Litra) : M unit := λ self, (upd self, Ok tt).

Definition get_params (idProduct : Z) : result (Z * Z) :=
  p ← getitem LITRA_PRODUCTS idProduct;
  Ok (endpoint p, buffer_length p).

(** [setup_device] on the device of the session, from the given value of
    [self.reattach] to its new value: detaching and configuring both sit
    under the test for an active kernel driver, and [reattach] is set
    before the driver is detached. *)
Definition setup_device (self_device : usb_device) (reattach : bool) : T bool :=
  active ← usb self_device (UsbIsKernelDriverActive 0)
             (dev_is_kernel_driver_active self_device);
  if active : bool then
    usb self_device (UsbDetachKernelDriver 0) (dev_detach_kernel_driver self_device);;
    usb self_device UsbSetConfiguration (dev_set_configuration self_device);;
    mret true
  else mret reattach.

(** [__init__] returns the new object, or raises: the two checks come
    before anything is asked of the device, and an exception of
    [setup_device] leaves [__init__]. *)
Definition __init__ (usb_device : usb_device) : result Litra :=
  if decide (dev_idVendor usb_device ≠ LOGITECH_VENDOR_ID) then Raise RuntimeError
  else if decide (LITRA_PRODUCTS !! dev_idProduct usb_device = None) then Raise RuntimeError
  else
    '(endpoint, buffer_length) ← get_params (dev_idProduct usb_device);
    reattach ← (setup_device usb_device false).2;
    Ok {| device := usb_device;
          idVendor := dev_idVendor usb_device;
          idProduct := dev_idProduct usb_device;
          reattach := reattach;
          self_endpoint := endpoint;
          self_buffer_length := buffer_length;
          __power := PyNone;
          __temperature := PyNone;
          __brightness := PyNone |}.

(** *** Property setters *)

(** Each message that shows the value converts it to text first. *)
Definition power_setter (value : pyval) : M unit :=
  if negb (isinstance_bool value) then raise ValueError
  else
    lift (format_value value);;
    assign (set___power value).

Definition brightness_setter (value : pyval) : M unit :=
  if negb (isinstance_int value) then
    lift (format_value value);;
    mret tt
  else
    ok ← lift (between 20 value 250);
    if negb ok then
      lift (format_value value);;
      mret tt
    else assign (set___brightness value).

Definition temperature_setter (value : pyval) : M unit :=
  ok ← lift (between 2700 value 6500);
  if negb ok then
    lift (format_value value);;
    raise ValueError
  else
    lift (format_value value);;
    assign (set___temperature value).

(** [setattr(self, attr_name, value)]: the three properties go through
    their setters; any other name becomes a plain instance attribute,
    which none of the modelled fields sees. *)
Definition setattr (attr_name : string) (value : pyval) : M unit :=
  if decide (attr_name = "power") then power_setter value
  else if decide (attr_name = "brightness") then brightness_setter value
  else if decide (attr_name = "temperature") then temperature_setter value
  else mret tt.

(** *** Inbound reports *)

(** The guard compares the two-item slice [result_list[0:2]] with the
    three-item prefix. *)
Definition process_result (result : list Z) : M unit :=
  let result_list := result in
  if negb (bool_decide (slice result_list 0 2 ≠ [17; 255; 4])) then mret tt
  else
    let input_data := drop 3 result_list in
    '(input_code, input_data) ← lift (pop0 input_data);
    attr_name ← lift (getitem INPUT_CODES input_code);
    value ← lift (f ← getitem INPUT_VALIDATION input_code; f input_data);
    setattr attr_name value.

(** What one [self.device.read] of the polling loop gives. *)
Inductive read_outcome : Type :=
| ReadData (result : list Z)
| ReadTimeout
| ReadError.

(** The [while True] loop of [test_inputs], run against the outcomes of
    its successive reads: a timeout is caught and the loop goes on, any
    other exception leaves the loop.  [Ok tt] is the loop still polling
    when the outcomes are used up. *)
Fixpoint test_inputs (reads : list read_outcome) : M unit :=
  match reads with
  | [] => mret tt
  | ReadData result :: reads' => process_result result;; test_inputs reads'
  | ReadTimeout :: reads' => test_inputs reads'
  | ReadError :: _ => raise USBError
  end.

(** A Glow with an active kernel driver that answers every call, and the
    session built on it. *)
Definition glow_device : usb_device :=
  {| dev_idVendor := 0x046d; dev_idProduct := 0xc900;
     dev_is_kernel_driver_active := Ok true;
     dev_detach_kernel_driver := Ok tt;
     dev_set_configuration := Ok tt;
     dev_attach_kernel_driver := Ok tt;
     dev_dispose_resources := Ok tt;
     dev_write := Ok 20;
     dev_read := Ok ([0x11; 0xff; 0x04; 0; 1] ++ replicate 59 0) |}.

Definition glow_session : Litra :=
  {| device := glow_device;
     idVendor := 0x046d; idProduct := 0xc900; reattach := true;
     self_endpoint := 0x02; self_buffer_length := 64;
     __power := PyNone; __temperature := PyNone; __brightness := PyNone |}.

(** ** Calls and reachable states *)

(** What a caller can do to a session: assign to one of the three
    properties, or hand a report to [process_result]. *)
Inductive call : Type :=
| AssignPower (value : pyval)
| AssignBrightness (value : pyval)
| AssignTemperature (value : pyval)
| ProcessResult (result : list Z).

Definition run_call (c : call) : M unit :=
  match c with
  | AssignPower value => power_setter value
  | AssignBrightness value => brightness_setter value
  | AssignTemperature value => temperature_setter value
  | ProcessResult result => process_result result
  end.

(** The states of a session from [__init__] on; a call that raises leaves
    the object as it was when the exception left the method. *)
Inductive reachable : Litra → Prop :=
| reachable_init usb_device self :
    __init__ usb_device = Ok self → reachable self
| reachable_call self c :
    reachable self → reachable (run_call c self).1.

Definition power_ok (v : pyval) : Prop :=
  v = PyNone ∨ ∃ b, v = PyBool b.

Definition brightness_ok (v : pyval) : Prop :=
  v = PyNone ∨ ∃ z, v = PyInt z ∧ 20 ≤ z ≤ 250.

Definition temperature_ok (v : pyval) : Prop :=
  v = PyNone ∨ between 2700 v 6500 = Ok true.

Definition state_ok (self : Litra) : Prop :=
  power_ok (__power self)
  ∧ brightness_ok (__brightness self)
  ∧ temperature_ok (__temperature self).

(** ** What the session asks of the transport *)

(** [teardown_device] disposes of the session's own device, and attaches
    the kernel driver of whatever the module-level [dev] is bound to. *)
Definition teardown_device (dev : option usb_device) (self : Litra) : T unit :=
  usb (device self) UsbDisposeResources (dev_dispose_resources (device self));;
  if reattach self then
    d ← global_dev dev;
    usb d (UsbAttachKernelDriver 0) (dev_attach_kernel_driver d)
  else mret tt.

(** [on] and [off] write to and read from the module-level [dev], at the
    endpoint and with the buffer length of the session. *)
Definition on (dev : option usb_device) (self : Litra) : T unit :=
  command ← T_lift (litra_command "power" 1);
  d ← global_dev dev;
  usb d (UsbWrite (self_endpoint self) command TIMEOUT_MS) (dev_write d);;
  d ← global_dev dev;
  usb d (UsbRead (self_endpoint self) (self_buffer_length self)) (dev_read d);;
  mret tt.

Definition off (dev : option usb_device) (self : Litra) : T unit :=
  command ← T_lift (litra_command "power" 0);
  d ← global_dev dev;
  usb d (UsbWrite (self_endpoint self) command TIMEOUT_MS) (dev_write d);;
  d ← global_dev dev;
  usb d (UsbRead (self_endpoint self) (self_buffer_length self)) (dev_read d);;
  mret tt.

(** ** Reports that the code accepts *)

(** A report with the header 0x11, 0xFF, 0x04 that [process_result]
    handles without raising: a power report whose payload starts with 0
    or 1, a brightness report with two payload bytes, or a temperature
    report whose two payload bytes hold a number from 2700 to 6500. *)
Inductive accepted_report : list Z → Prop :=
| accepted_power b rest :
    b = 0 ∨ b = 1 →
    accepted_report (0x11 :: 0xff :: 0x04 :: 0 :: b :: rest)
| accepted_brightness hi lo rest :
    0 ≤ hi < 256 → 0 ≤ lo < 256 →
    accepted_report (0x11 :: 0xff :: 0x04 :: 16 :: hi :: lo :: rest)
| accepted_temperature hi lo rest :
    0 ≤ hi < 256 → 0 ≤ lo < 256 → 2700 ≤ hi * 256 + lo ≤ 6500 →
    accepted_report (0x11 :: 0xff :: 0x04 :: 32 :: hi :: lo :: rest).

Definition accepted_read (r : read_outcome) : Prop :=
  match r with
  | ReadData result => accepted_report result
  | ReadTimeout => True
  | ReadError => False
  end.

(** * Properties *)

(** ** The encoder *)

Section Encoder.

Lemma length_be_bytes n value : length (be_bytes n value) = n.
Proof. induction n as [|n IH]; simpl; [done | by rewrite IH]. Qed.

Lemma bit_length_nonneg value : 0 ≤ bit_length value.
Proof.
  unfold bit_length. case_decide; [done|].
  pose proof (Z.log2_nonneg (Z.abs value)). lia.
Qed.

(** A non-negative int is below 2 to the power of its bit length. *)
Lemma bit_length_spec value : 0 ≤ value → value < 2 ^ bit_length value.
Proof.
  intros Hv. unfold bit_length. case_decide as H0; [subst; done|].
  rewrite Z.abs_eq by done.
  replace (Z.log2 value + 1) with (Z.succ (Z.log2 value)) by lia.
  apply Z.log2_spec. lia.
Qed.

Lemma ceil_div_8_bounds n : n ≤ 8 * ceil_div n 8 < n + 8.
Proof.
  unfold ceil_div.
  pose proof (Z.div_mod (- n) 8 ltac:(lia)).
  pose proof (Z.mod_pos_bound (- n) 8 ltac:(lia)).
  lia.
Qed.

(** The value field never overflows [to_bytes]: its length is computed
    from the value. *)
Lemma value_bytes_nonneg value :
  0 ≤ value →
  value_bytes value =
    Ok (be_bytes (Z.to_nat (ceil_div (bit_length value) 8)) value).
Proof.
  intros Hv. unfold value_bytes, to_bytes.
  pose proof (bit_length_nonneg value) as Hb.
  pose proof (ceil_div_8_bounds (bit_length value)) as Hc.
  pose proof (bit_length_spec value Hv) as Hs.
  rewrite decide_False by lia.
  rewrite decide_False by lia.
  rewrite decide_False; [done|].
  assert (2 ^ bit_length value ≤ 2 ^ (8 * ceil_div (bit_length value) 8))
    by (apply Z.pow_le_mono_r; lia).
  lia.
Qed.

Lemma litra_command_unfold command code value :
  LITRA_COMMANDS !! command = Some code →
  0 ≤ value →
  litra_command command value =
    let vb := be_bytes (Z.to_nat (ceil_div (bit_length value) 8)) value in
    let output := [17; 255; 4; code] ++ vb in
    Ok (output ++ replicate (Z.to_nat (20 - Z.of_nat (length output))) 0).
Proof.
  intros Hc Hv. unfold litra_command, getitem. rewrite Hc. simpl.
  rewrite value_bytes_nonneg by done. reflexivity.
Qed.

End Encoder.

(** C5.  For a recognised command name and a non-negative value whose
    minimal big-endian encoding takes at most 16 bytes, [litra_command]
    returns a buffer of exactly 20 items that starts with the prefix
    0x11, 0xFF, 0x04 and has the command code at index 3; and
    [litra_command('power', 1)] is the prefix, 0x1C, 0x01 and 15 zeros. *)
Theorem litra_command_layout command code value :
  LITRA_COMMANDS !! command = Some code →
  0 ≤ value →
  ceil_div (bit_length value) 8 ≤ 16 →
  (∃ buf, litra_command command value = Ok buf
          ∧ length buf = 20%nat
          ∧ take 3 buf = [0x11; 0xff; 0x04]
          ∧ buf !! 3%nat = Some code)
  ∧ litra_command "power" 1 = Ok ([0x11; 0xff; 0x04; 0x1c; 0x01] ++ replicate 15 0).
Proof.
  intros Hc Hv Hlen. split; [|reflexivity].
  rewrite (litra_command_unfold _ _ _ Hc Hv). cbv zeta.
  eexists. split; [reflexivity|].
  pose proof (bit_length_nonneg value) as Hb.
  pose proof (ceil_div_8_bounds (bit_length value)) as Hcd.
  split; [|done].
  rewrite !length_app, length_replicate, length_be_bytes. simpl. lia.
Qed.

Lemma litra_command_layout_witness :
  (∃ buf, litra_command "temperature" 6500 = Ok buf
          ∧ length buf = 20%nat
          ∧ take 3 buf = [0x11; 0xff; 0x04]
          ∧ buf !! 3%nat = Some 0x9c)
  ∧ litra_command "power" 1 = Ok ([0x11; 0xff; 0x04; 0x1c; 0x01] ++ replicate 15 0).
Proof.
  apply (litra_command_layout "temperature" 0x9c 6500);
    [reflexivity | lia | vm_compute; discriminate].
Defined.

(** C2, as the claim states it, fails: for value 0 the bit length is 0,
    so the value field that the encoder emits has no byte at all. *)
Lemma value_bytes_zero_not_one_byte :
  ¬ ∃ bs, value_bytes 0 = Ok bs ∧ (1 ≤ length bs)%nat.
Proof. intros (bs & H & Hlen). vm_compute in H. injection H as <-. simpl in Hlen. lia. Qed.

(** C2, amended.  For value 0 the encoder emits an empty value field, and
    for a recognised command the buffer is the prefix, the command code
    and 16 zero bytes of padding. *)
Theorem litra_command_zero command code :
  LITRA_COMMANDS !! command = Some code →
  value_bytes 0 = Ok []
  ∧ litra_command command 0 = Ok ([0x11; 0xff; 0x04; code] ++ replicate 16 0).
Proof.
  intros Hc. split; [reflexivity|].
  rewrite (litra_command_unfold _ _ _ Hc); [reflexivity | lia].
Qed.

Lemma litra_command_zero_witness :
  value_bytes 0 = Ok []
  ∧ litra_command "power" 0 = Ok ([0x11; 0xff; 0x04; 0x1c] ++ replicate 16 0).
Proof. apply (litra_command_zero "power" 0x1c). reflexivity. Defined.

(** C4, as the claim states it, fails: 2^128 needs 17 value bytes, and
    the encoder returns a buffer of 21 items instead of failing. *)
Lemma litra_command_oversized_returns :
  ceil_div (bit_length (2 ^ 128)) 8 = 17
  ∧ litra_command "power" (2 ^ 128)
    = Ok ([0x11; 0xff; 0x04; 0x1c; 0x01] ++ replicate 16 0).
Proof. split; reflexivity. Qed.

(** C4, amended.  For a recognised command and a non-negative value that
    needs more than 16 value bytes, [litra_command] raises nothing and
    returns the prefix, the command code and the value bytes with no
    padding: a buffer of 4 plus the number of value bytes, longer than
    20. *)
Theorem litra_command_oversized command code value :
  LITRA_COMMANDS !! command = Some code →
  0 ≤ value →
  16 < ceil_div (bit_length value) 8 →
  ∃ vb, value_bytes value = Ok vb
        ∧ litra_command command value = Ok ([0x11; 0xff; 0x04; code] ++ vb)
        ∧ Z.of_nat (length vb) = ceil_div (bit_length value) 8
        ∧ 20 < Z.of_nat (length ([0x11; 0xff; 0x04; code] ++ vb)).
Proof.
  intros Hc Hv Hlen.
  exists (be_bytes (Z.to_nat (ceil_div (bit_length value) 8)) value).
  split; [by apply value_bytes_nonneg|].
  rewrite (litra_command_unfold _ _ _ Hc Hv). cbv zeta.
  rewrite !length_app, !length_be_bytes.
  change (length [17; 255; 4; code]) with 4%nat.
  replace (Z.to_nat (20 - _)) with 0%nat by lia.
  simpl. rewrite app_nil_r. split; [done|]. lia.
Qed.

Lemma litra_command_oversized_witness :
  ∃ vb, value_bytes (2 ^ 128) = Ok vb
        ∧ litra_command "brightness" (2 ^ 128) = Ok ([0x11; 0xff; 0x04; 0x4c] ++ vb)
        ∧ Z.of_nat (length vb) = ceil_div (bit_length (2 ^ 128)) 8
        ∧ 20 < Z.of_nat (length ([0x11; 0xff; 0x04; 0x4c] ++ vb)).
Proof.
  apply (litra_command_oversized "brightness" 0x4c (2 ^ 128));
    [reflexivity | lia | vm_compute; reflexivity].
Defined.

(** ** The property setters *)

Section Setters.

Lemma between_int lo z hi :
  between lo (PyInt z) hi = Ok (bool_decide (lo ≤ z) && bool_decide (z ≤ hi)).
Proof. unfold between, le; simpl. by destruct (bool_decide (lo ≤ z)). Qed.

Lemma between_int_true lo z hi : lo ≤ z ≤ hi → between lo (PyInt z) hi = Ok true.
Proof.
  intros [??]. rewrite between_int.
  by rewrite !bool_decide_eq_true_2.
Qed.

Lemma between_int_false lo z hi : z < lo ∨ hi < z → between lo (PyInt z) hi = Ok false.
Proof.
  intros H. rewrite between_int.
  destruct H; [rewrite (bool_decide_eq_false_2 (lo ≤ z)) by lia; done|].
  rewrite (bool_decide_eq_false_2 (z ≤ hi)) by lia. by rewrite andb_false_r.
Qed.

(** A bool counts as 0 or 1, below either range. *)
Lemma between_bool lo b hi : 1 < lo → between lo (PyBool b) hi = Ok false.
Proof.
  intros H. unfold between, le; simpl.
  rewrite bool_decide_eq_false_2; [done|]. destruct b; lia.
Qed.

(** The limit of the conversion to text is far above every number that
    the device or the ranges know. *)
Lemma max_str_bound_large : 2 ^ 64 ≤ 10 ^ int_max_str_digits.
Proof.
  etrans; [apply (Z.pow_le_mono_l 2 10 64); lia|].
  apply Z.pow_le_mono_r; [lia|]. by vm_compute.
Qed.

Lemma format_value_small z : Z.abs z < 2 ^ 64 → format_value (PyInt z) = Ok tt.
Proof.
  intros H. unfold format_value. rewrite decide_False; [done|].
  pose proof max_str_bound_large as Hb. revert Hb.
  generalize (10 ^ int_max_str_digits). intros. lia.
Qed.

Lemma format_value_short z :
  Z.abs z < 10 ^ int_max_str_digits → format_value (PyInt z) = Ok tt.
Proof.
  intros H. unfold format_value. rewrite decide_False; [done|].
  revert H. generalize (10 ^ int_max_str_digits). intros. lia.
Qed.

Lemma format_value_long z :
  10 ^ int_max_str_digits ≤ Z.abs z → format_value (PyInt z) = Raise ValueError.
Proof. intros H. unfold format_value. by rewrite decide_True. Qed.

Lemma format_value_raises v e : format_value v = Raise e → e = ValueError.
Proof.
  destruct v as [|b|z|f|s]; try done.
  unfold format_value. case_decide; [|done]. by intros [= <-].
Qed.

Lemma brightness_setter_in_range z self :
  20 ≤ z ≤ 250 →
  brightness_setter (PyInt z) self = (set___brightness (PyInt z) self, Ok tt).
Proof.
  intros H. unfold brightness_setter, isinstance_int, negb, mbind, M_bind, lift.
  by rewrite between_int_true.
Qed.

Lemma brightness_setter_out_of_range z self :
  z < 20 ∨ 250 < z →
  Z.abs z < 10 ^ int_max_str_digits →
  brightness_setter (PyInt z) self = (self, Ok tt).
Proof.
  intros H Hs. unfold brightness_setter, isinstance_int, negb, mbind, M_bind, lift.
  rewrite between_int_false by done. by rewrite format_value_short.
Qed.

Lemma brightness_setter_out_of_range_small z self :
  z < 20 ∨ 250 < z →
  Z.abs z < 2 ^ 64 →
  brightness_setter (PyInt z) self = (self, Ok tt).
Proof.
  intros H Hs. apply brightness_setter_out_of_range; [done|].
  pose proof max_str_bound_large as Hb. revert Hb.
  generalize (10 ^ int_max_str_digits). intros. lia.
Qed.

Lemma brightness_setter_long z self :
  10 ^ int_max_str_digits ≤ Z.abs z →
  brightness_setter (PyInt z) self = (self, Raise ValueError).
Proof.
  intros Hs. unfold brightness_setter, isinstance_int, negb, mbind, M_bind, lift.
  rewrite between_int_false, format_value_long; [done | done |].
  pose proof max_str_bound_large as Hb. revert Hs Hb.
  generalize (10 ^ int_max_str_digits). intros. lia.
Qed.

Lemma temperature_setter_in_range z self :
  2700 ≤ z ≤ 6500 →
  temperature_setter (PyInt z) self = (set___temperature (PyInt z) self, Ok tt).
Proof.
  intros H. unfold temperature_setter, mbind, M_bind, lift.
  rewrite between_int_true by done. cbv beta iota delta [negb].
  by rewrite format_value_small by lia.
Qed.

Lemma temperature_setter_out_of_range z self :
  z < 2700 ∨ 6500 < z → temperature_setter (PyInt z) self = (self, Raise ValueError).
Proof.
  intros H. unfold temperature_setter, mbind, M_bind, lift.
  rewrite between_int_false by done. cbv beta iota delta [negb].
  destruct (format_value (PyInt z)) as [[]|e] eqn:He; [done|].
  by rewrite (format_value_raises _ _ He).
Qed.

End Setters.

(** C7.  The code at an out-of-range int whose decimal form has one digit
    more than the interpreter converts to text (4300): the brightness
    setter does not return.  Making the message that says the value is
    ignored raises [ValueError]; the object is left as it was. *)
Theorem brightness_setter_message_raises self :
  int_max_str_digits = 4300
  ∧ 250 < 10 ^ int_max_str_digits
  ∧ isinstance_int (PyInt (10 ^ int_max_str_digits)) = true
  ∧ brightness_setter (PyInt (10 ^ int_max_str_digits)) self = (self, Raise ValueError).
Proof.
  split; [by vm_compute|]. split.
  { pose proof max_str_bound_large as Hb. revert Hb.
    generalize (10 ^ int_max_str_digits). intros. lia. }
  split; [done|].
  apply brightness_setter_long.
  generalize (10 ^ int_max_str_digits). intros. lia.
Qed.

(** C8.  The temperature setter, given an int below 2700 or above 6500,
    raises [ValueError] (the invalid-temperature error) and leaves the
    object as it was; given an int from 2700 to 6500, both bounds
    included, it returns and the temperature of the object is then that
    int. *)
Theorem temperature_setter_hard_reject z self :
  (z < 2700 ∨ 6500 < z →
   temperature_setter (PyInt z) self = (self, Raise ValueError))
  ∧ (2700 ≤ z ≤ 6500 →
     temperature_setter (PyInt z) self = (set___temperature (PyInt z) self, Ok tt)
     ∧ __temperature (temperature_setter (PyInt z) self).1 = PyInt z).
Proof.
  split; intros H.
  - by apply temperature_setter_out_of_range.
  - by rewrite temperature_setter_in_range.
Qed.

Lemma temperature_setter_hard_reject_witness :
  (temperature_setter (PyInt 2699) glow_session = (glow_session, Raise ValueError)
   ∧ temperature_setter (PyInt 6501) glow_session = (glow_session, Raise ValueError))
  ∧ ((temperature_setter (PyInt 2700) glow_session
        = (set___temperature (PyInt 2700) glow_session, Ok tt)
      ∧ __temperature (temperature_setter (PyInt 2700) glow_session).1 = PyInt 2700)
     ∧ (temperature_setter (PyInt 6500) glow_session
          = (set___temperature (PyInt 6500) glow_session, Ok tt)
        ∧ __temperature (temperature_setter (PyInt 6500) glow_session).1 = PyInt 6500)).
Proof.
  split; split.
  - apply (proj1 (temperature_setter_hard_reject 2699 glow_session)). lia.
  - apply (proj1 (temperature_setter_hard_reject 6501 glow_session)). lia.
  - apply (proj2 (temperature_setter_hard_reject 2700 glow_session)). lia.
  - apply (proj2 (temperature_setter_hard_reject 6500 glow_session)). lia.
Defined.

(** C9.  The temperature setter has no type test: a float is not an
    [int], yet any float for which [2700 <= value <= 6500] holds is stored
    as it is.  3000.5 is such a float, and it equals no int. *)
Theorem temperature_setter_float f self :
  between 2700 (PyFloat f) 6500 = Ok true →
  isinstance_int (PyFloat f) = false
  ∧ temperature_setter (PyFloat f) self = (set___temperature (PyFloat f) self, Ok tt)
  ∧ __temperature (set___temperature (PyFloat f) self) = PyFloat f
  ∧ between 2700 (PyFloat 3000.5) 6500 = Ok true
  ∧ ∀ z, compare_int_float z 3000.5 ≠ Some Eq.
Proof.
  intros H. split; [done|]. split.
  { unfold temperature_setter, mbind, M_bind, lift. by rewrite H. }
  split; [done|]. split; [by vm_compute|].
  intros z. unfold compare_int_float.
  replace (Prim2SF 3000.5) with (S754_finite false 6598169278283776 (-41))
    by (by vm_compute).
  rewrite decide_False by lia. intros [= Hz].
  apply Z.compare_eq in Hz. change (2 ^ (- -41)) with 2199023255552 in Hz. lia.
Qed.

Lemma temperature_setter_float_witness :
  isinstance_int (PyFloat 3000.5) = false
  ∧ temperature_setter (PyFloat 3000.5) glow_session
    = (set___temperature (PyFloat 3000.5) glow_session, Ok tt)
  ∧ __temperature (set___temperature (PyFloat 3000.5) glow_session) = PyFloat 3000.5
  ∧ between 2700 (PyFloat 3000.5) 6500 = Ok true
  ∧ ∀ z, compare_int_float z 3000.5 ≠ Some Eq.
Proof.
  apply (temperature_setter_float 3000.5 glow_session). vm_compute. reflexivity.
Defined.

(** ** Inbound reports *)

Section Reports.

(** A two-item slice never equals the three-item prefix, so the guard of
    [process_result] lets every report through. *)
Lemma prefix_guard_true (result : list Z) :
  bool_decide (slice result 0 2 ≠ [17; 255; 4]) = true.
Proof.
  apply bool_decide_eq_true_2. intros H.
  apply (f_equal length) in H. unfold slice in H.
  rewrite length_take in H. change (length [17; 255; 4]) with 3%nat in H. lia.
Qed.

(** A report of fewer than 4 items: [pop(0)] finds the list empty. *)
Lemma process_result_short (result : list Z) self :
  (length result < 4)%nat →
  process_result result self = (self, Raise IndexError).
Proof.
  intros Hlen. unfold process_result. rewrite prefix_guard_true.
  destruct result as [|b0 [|b1 [|b2 [|c p]]]]; simpl in Hlen; try lia; done.
Qed.

(** A report of at least 4 items, whatever its first three are. *)
Lemma process_result_long b0 b1 b2 input_code input_data :
  process_result (b0 :: b1 :: b2 :: input_code :: input_data) =
    (attr_name ← lift (getitem INPUT_CODES input_code);
     value ← lift (f ← getitem INPUT_VALIDATION input_code; f input_data);
     setattr attr_name value).
Proof. unfold process_result. rewrite prefix_guard_true. reflexivity. Qed.

Lemma INPUT_CODES_unknown input_code :
  input_code ≠ 0 → input_code ≠ 16 → input_code ≠ 32 →
  INPUT_CODES !! input_code = None.
Proof.
  intros. unfold INPUT_CODES.
  rewrite !lookup_insert_ne by done. apply lookup_empty.
Qed.

Lemma INPUT_VALIDATION_known input_code (f : list Z → result pyval) :
  INPUT_VALIDATION !! input_code = Some f →
  (input_code = 0 ∧ f = __validate_power)
  ∨ (input_code = 16 ∧ f = __validate_brightness)
  ∨ (input_code = 32 ∧ f = __validate_temperature).
Proof.
  unfold INPUT_VALIDATION. intros H.
  destruct (decide (input_code = 0)) as [->|];
    [rewrite lookup_insert_eq in H; naive_solver|].
  rewrite lookup_insert_ne in H by done.
  destruct (decide (input_code = 16)) as [->|];
    [rewrite lookup_insert_eq in H; naive_solver|].
  rewrite lookup_insert_ne in H by done.
  destruct (decide (input_code = 32)) as [->|];
    [rewrite lookup_insert_eq in H; naive_solver|].
  rewrite lookup_insert_ne in H by done.
  by rewrite lookup_empty in H.
Qed.

(** The reads that went well so far do not change what the next one does. *)
Lemma test_inputs_app before after self self' :
  test_inputs before self = (self', Ok tt) →
  test_inputs (before ++ after) self = test_inputs after self'.
Proof.
  revert self. induction before as [|r before IH]; intros self H; simpl in *.
  - unfold mret, M_ret in H. by injection H as ->.
  - destruct r as [result| |]; [| by apply IH | done].
    unfold mbind, M_bind in *.
    destruct (process_result result self) as [self1 [[]|e]]; [by apply IH | done].
Qed.

End Reports.

(** C1.  The code at a report with a wrong third byte: the report
    0x11, 0xFF, 0x05, 0, 1 is not refused; it is decoded as a power report
    and the power is set to [True], without any error. *)
Theorem process_result_wrong_prefix_applied self :
  process_result [0x11; 0xff; 0x05; 0; 1] self
  = (set___power (PyBool true) self, Ok tt).
Proof. reflexivity. Qed.

(** C6.  For a field code with a validator and a payload on which that
    validator returns a value, the report made of the header
    0x11, 0xFF, 0x04, the field code and the payload is handled by
    assigning that value to the attribute that [INPUT_CODES] names for the
    code (power for 0, brightness for 16, temperature for 32): the power
    of the object is then that value, and so is its brightness when the
    value is an int from 20 to 250, and its temperature when the value is
    an int from 2700 to 6500.  The report
    0x11, 0xFF, 0x04, 16, 0x00, 0xFA followed by any padding is handled
    without error, and the brightness of the object is then 250. *)
Theorem process_result_round_trip input_code validate payload value padding self :
  INPUT_VALIDATION !! input_code = Some validate →
  validate payload = Ok value →
  (∃ attr_name,
      INPUT_CODES !! input_code = Some attr_name
      ∧ (input_code = 0 ∧ attr_name = "power" ∧ validate = __validate_power
         ∨ input_code = 16 ∧ attr_name = "brightness" ∧ validate = __validate_brightness
         ∨ input_code = 32 ∧ attr_name = "temperature" ∧ validate = __validate_temperature)
      ∧ process_result ([0x11; 0xff; 0x04; input_code] ++ payload) self
        = setattr attr_name value self)
  ∧ (input_code = 0 →
     __power (process_result ([0x11; 0xff; 0x04; input_code] ++ payload) self).1 = value)
  ∧ (∀ z, input_code = 16 → value = PyInt z → 20 ≤ z ≤ 250 →
     __brightness (process_result ([0x11; 0xff; 0x04; input_code] ++ payload) self).1
     = PyInt z)
  ∧ (∀ z, input_code = 32 → value = PyInt z → 2700 ≤ z ≤ 6500 →
     __temperature (process_result ([0x11; 0xff; 0x04; input_code] ++ payload) self).1
     = PyInt z)
  ∧ process_result ([0x11; 0xff; 0x04; 16; 0x00; 0xfa] ++ padding) self
    = (set___brightness (PyInt 250) self, Ok tt)
  ∧ __brightness (process_result ([0x11; 0xff; 0x04; 16; 0x00; 0xfa] ++ padding) self).1
    = PyInt 250.
Proof.
  intros Hf Hv.
  assert (Hpr : ∀ attr_name, INPUT_CODES !! input_code = Some attr_name →
            process_result ([0x11; 0xff; 0x04; input_code] ++ payload) self
            = setattr attr_name value self).
  { intros attr_name Ha. simpl app. rewrite process_result_long.
    unfold mbind at 1 2, M_bind, lift, getitem. rewrite Ha, Hf.
    unfold mbind, result_bind. by rewrite Hv. }
  split; [|split; [|split; [|split; [|split; reflexivity]]]].
  - destruct (INPUT_VALIDATION_known _ _ Hf) as [[-> ->]|[[-> ->]|[-> ->]]];
      eexists; (split; [reflexivity|]); (split; [|by apply Hpr]); naive_solver.
  - intros ->. rewrite (Hpr "power") by done.
    change (INPUT_VALIDATION !! 0) with (Some __validate_power) in Hf.
    injection Hf as <-. unfold __validate_power in Hv.
    destruct (item0 payload) as [input_value|]; [|done]. simpl in Hv.
    case_decide; [done|]. by injection Hv as <-.
  - intros z -> -> Hz. rewrite (Hpr "brightness") by done.
    change (setattr "brightness" ?v) with (brightness_setter v).
    by rewrite brightness_setter_in_range.
  - intros z -> -> Hz. rewrite (Hpr "temperature") by done.
    change (setattr "temperature" ?v) with (temperature_setter v).
    by rewrite temperature_setter_in_range.
Qed.

Lemma process_result_round_trip_witness :
  (∃ attr_name,
      INPUT_CODES !! 32 = Some attr_name
      ∧ (32 = 0 ∧ attr_name = "power" ∧ __validate_temperature = __validate_power
         ∨ 32 = 16 ∧ attr_name = "brightness"
           ∧ __validate_temperature = __validate_brightness
         ∨ 32 = 32 ∧ attr_name = "temperature"
           ∧ __validate_temperature = __validate_temperature)
      ∧ process_result ([0x11; 0xff; 0x04; 32] ++ [0x0b; 0xb8; 0; 0]) glow_session
        = setattr attr_name (PyInt 3000) glow_session)
  ∧ (32 = 0 →
     __power (process_result ([0x11; 0xff; 0x04; 32] ++ [0x0b; 0xb8; 0; 0]) glow_session).1
     = PyInt 3000)
  ∧ (∀ z, 32 = 16 → PyInt 3000 = PyInt z → 20 ≤ z ≤ 250 →
     __brightness
       (process_result ([0x11; 0xff; 0x04; 32] ++ [0x0b; 0xb8; 0; 0]) glow_session).1
     = PyInt z)
  ∧ (∀ z, 32 = 32 → PyInt 3000 = PyInt z → 2700 ≤ z ≤ 6500 →
     __temperature
       (process_result ([0x11; 0xff; 0x04; 32] ++ [0x0b; 0xb8; 0; 0]) glow_session).1
     = PyInt z)
  ∧ process_result ([0x11; 0xff; 0x04; 16; 0x00; 0xfa] ++ [7; 7]) glow_session
    = (set___brightness (PyInt 250) glow_session, Ok tt)
  ∧ __brightness
      (process_result ([0x11; 0xff; 0x04; 16; 0x00; 0xfa] ++ [7; 7]) glow_session).1
    = PyInt 250.
Proof.
  apply (process_result_round_trip 32 __validate_temperature [0x0b; 0xb8; 0; 0]
           (PyInt 3000) [7; 7] glow_session); reflexivity.
Defined.

(** C3, as the claim states it, fails: a report with field code 5 raises
    [KeyError] out of the polling loop, and the well-formed power report
    that is read next, which alone would set the power, is never
    processed. *)
Lemma test_inputs_stops_at_unknown_field :
  test_inputs [ReadData [0x11; 0xff; 0x04; 5; 2]; ReadData [0x11; 0xff; 0x04; 0; 1]]
    glow_session = (glow_session, Raise KeyError)
  ∧ test_inputs [ReadData [0x11; 0xff; 0x04; 0; 1]] glow_session
    = (set___power (PyBool true) glow_session, Ok tt).
Proof. split; reflexivity. Qed.

(** C3, amended.  The polling loop catches the read timeout only: a
    timeout is skipped and the loop goes on.  After reads that went well,
    a report with the header 0x11, 0xFF, 0x04 whose field code is none of
    0, 16, 32 raises [KeyError], and one with field code 0 whose first
    payload byte is neither 0 nor 1 raises [RuntimeError]; the exception
    leaves the loop with the object as the earlier reports left it, and no
    later read is processed. *)
Theorem test_inputs_bad_report_leaves_loop before input_code payload e after self self' :
  test_inputs before self = (self', Ok tt) →
  (input_code ≠ 0 ∧ input_code ≠ 16 ∧ input_code ≠ 32 ∧ e = KeyError)
  ∨ (input_code = 0 ∧ (∃ b rest, payload = b :: rest ∧ b ≠ 0 ∧ b ≠ 1)
     ∧ e = RuntimeError) →
  test_inputs (before ++ ReadTimeout :: after) self = test_inputs after self'
  ∧ test_inputs (before ++ ReadData ([0x11; 0xff; 0x04; input_code] ++ payload) :: after)
      self = (self', Raise e).
Proof.
  intros Hbefore Hbad. rewrite !(test_inputs_app _ _ _ _ Hbefore).
  split; [done|].
  simpl. unfold mbind at 1, M_bind. rewrite process_result_long.
  destruct Hbad as [(H0 & H16 & H32 & ->)|(-> & (b & rest & -> & Hb0 & Hb1) & ->)].
  - unfold mbind at 1, M_bind, lift, getitem.
    by rewrite INPUT_CODES_unknown.
  - unfold mbind at 1 2, M_bind, lift, getitem.
    change (INPUT_CODES !! 0) with (Some "power").
    change (INPUT_VALIDATION !! 0) with (Some __validate_power).
    unfold __validate_power, mbind, result_bind, item0.
    by rewrite decide_True.
Qed.

Lemma test_inputs_bad_report_leaves_loop_witness :
  test_inputs ([ReadTimeout; ReadData [0x11; 0xff; 0x04; 16; 0; 100]]
                 ++ ReadTimeout :: [ReadData [0x11; 0xff; 0x04; 0; 1]]) glow_session
  = test_inputs [ReadData [0x11; 0xff; 0x04; 0; 1]]
      (set___brightness (PyInt 100) glow_session)
  ∧ test_inputs ([ReadTimeout; ReadData [0x11; 0xff; 0x04; 16; 0; 100]]
                   ++ ReadData ([0x11; 0xff; 0x04; 5] ++ [2; 0])
                      :: [ReadData [0x11; 0xff; 0x04; 0; 1]]) glow_session
    = (set___brightness (PyInt 100) glow_session, Raise KeyError).
Proof.
  apply (test_inputs_bad_report_leaves_loop
           [ReadTimeout; ReadData [0x11; 0xff; 0x04; 16; 0; 100]] 5 [2; 0] KeyError
           [ReadData [0x11; 0xff; 0x04; 0; 1]] glow_session
           (set___brightness (PyInt 100) glow_session)).
  - reflexivity.
  - left. repeat split; lia.
Defined.

(** ** The reachable states *)

Section Invariant.

Lemma __init___state_ok usb_device self :
  __init__ usb_device = Ok self → state_ok self.
Proof.
  unfold __init__. repeat case_decide; try done.
  destruct (get_params _) as [[e b]|]; [|done].
  unfold mbind, result_bind.
  destruct (setup_device usb_device false).2 as [r|]; [|done].
  intros [= <-]. repeat split; by left.
Qed.

Lemma power_setter_state_ok value self :
  state_ok self → state_ok (power_setter value self).1.
Proof.
  intros (Hp & Hb & Ht). unfold power_setter.
  destruct value; simpl; try done.
  repeat split; [right; eauto | done | done].
Qed.

Lemma brightness_setter_state_ok value self :
  state_ok self → state_ok (brightness_setter value self).1.
Proof.
  intros (Hp & Hb & Ht).
  destruct value as [|b|z|f|s]; try done.
  - unfold brightness_setter, isinstance_int, negb, mbind, M_bind, lift.
    by rewrite between_bool.
  - destruct (decide (20 ≤ z ≤ 250)) as [Hz|Hz].
    + rewrite brightness_setter_in_range by done.
      repeat split; [done | right; eauto | done].
    + destruct (decide (10 ^ int_max_str_digits ≤ Z.abs z)).
      * by rewrite brightness_setter_long.
      * by rewrite brightness_setter_out_of_range by lia.
Qed.

Lemma temperature_setter_state_ok value self :
  state_ok self → state_ok (temperature_setter value self).1.
Proof.
  intros (Hp & Hb & Ht). unfold temperature_setter, mbind, M_bind, lift.
  destruct (between 2700 value 6500) as [[]|e] eqn:Hbetween;
    cbv beta iota delta [negb];
    destruct (format_value value) as [[]|e']; try done.
  repeat split; [done | done | by right].
Qed.

Lemma setattr_state_ok attr_name value self :
  state_ok self → state_ok (setattr attr_name value self).1.
Proof.
  intros H. unfold setattr. repeat case_decide;
    auto using power_setter_state_ok, brightness_setter_state_ok,
      temperature_setter_state_ok.
Qed.

Lemma process_result_state_ok result self :
  state_ok self → state_ok (process_result result self).1.
Proof.
  intros H.
  destruct result as [|b0 [|b1 [|b2 [|input_code input_data]]]];
    try (rewrite process_result_short by (simpl; lia); done).
  rewrite process_result_long. unfold mbind, M_bind, lift, getitem.
  destruct (INPUT_CODES !! input_code) as [attr_name|]; [|done].
  destruct (INPUT_VALIDATION !! input_code) as [f|]; [|done].
  unfold result_bind. destruct (f input_data) as [value|e]; [|done].
  by apply setattr_state_ok.
Qed.

End Invariant.

(** C10.  In every state reachable from [__init__] through assignments to
    the three properties and calls of [process_result], the power is
    [None] or a bool, the brightness is [None] or an int from 20 to 250,
    and the temperature is [None] or a value for which
    [2700 <= value <= 6500] holds. *)
Theorem reachable_state_ok self :
  reachable self →
  power_ok (__power self)
  ∧ brightness_ok (__brightness self)
  ∧ temperature_ok (__temperature self).
Proof.
  induction 1 as [usb_device self Hinit | self c _ IH].
  - by apply (__init___state_ok usb_device).
  - destruct c; simpl.
    + by apply power_setter_state_ok.
    + by apply brightness_setter_state_ok.
    + by apply temperature_setter_state_ok.
    + by apply process_result_state_ok.
Qed.

Lemma reachable_state_ok_witness :
  power_ok (PyBool true) ∧ brightness_ok (PyInt 250) ∧ temperature_ok (PyFloat 3000.5).
Proof.
  apply (reachable_state_ok
           (run_call (AssignTemperature (PyFloat 3000.5))
              (run_call (ProcessResult [0x11; 0xff; 0x04; 16; 0x00; 0xfa])
                 (run_call (AssignBrightness (PyInt 251))
                    (run_call (AssignPower (PyBool true)) glow_session).1).1).1).1).
  do 4 apply reachable_call.
  apply (reachable_init glow_device). reflexivity.
Defined.

(** * Further properties *)

(** ** The encoder, beyond the buffer layout *)

Section EncoderMore.

Lemma LITRA_COMMANDS_lookup command code :
  LITRA_COMMANDS !! command = Some code ↔
    (command = "power_get" ∧ code = 0x1b) ∨ (command = "power" ∧ code = 0x1c)
    ∨ (command = "brightness" ∧ code = 0x4c)
    ∨ (command = "temperature" ∧ code = 0x9c).
Proof.
  unfold LITRA_COMMANDS.
  rewrite !lookup_insert_Some, lookup_empty. naive_solver.
Qed.

Lemma ceil_div_bit_length_nonneg value : 0 ≤ ceil_div (bit_length value) 8.
Proof.
  pose proof (bit_length_nonneg value).
  pose proof (ceil_div_8_bounds (bit_length value)). lia.
Qed.

Lemma be_bytes_byte n value : Forall (λ b, 0 ≤ b < 256) (be_bytes n value).
Proof.
  induction n as [|n IH]; simpl; constructor; [|done].
  change 255 with (Z.ones 8). rewrite Z.land_ones by lia.
  apply Z.mod_pos_bound. lia.
Qed.

(** The last byte of a big-endian encoding is the value modulo 256. *)
Lemma be_bytes_snoc n value :
  be_bytes (S n) value = be_bytes n (value / 256) ++ [value mod 256].
Proof.
  induction n as [|n IH].
  - simpl. rewrite Z.shiftr_0_r. change 255 with (Z.ones 8).
    by rewrite Z.land_ones by lia.
  - change (be_bytes (S (S n)) value)
      with (Z.land (value ≫ (8 * Z.of_nat (S n))) 255 :: be_bytes (S n) value).
    rewrite IH.
    change (be_bytes (S n) (value / 256))
      with (Z.land ((value / 256) ≫ (8 * Z.of_nat n)) 255 :: be_bytes n (value / 256)).
    simpl app. f_equal. f_equal.
    change 256 with (2 ^ 8). rewrite <- Z.shiftr_div_pow2 by lia.
    rewrite Z.shiftr_shiftr by lia. f_equal. lia.
Qed.

Lemma foldl_be_bytes n value :
  0 ≤ value →
  foldl (λ acc b, acc * 256 + b) 0 (be_bytes n value) = value mod 2 ^ (8 * Z.of_nat n).
Proof.
  revert value. induction n as [|n IH]; intros value Hv.
  - simpl. by rewrite Z.mod_1_r.
  - rewrite be_bytes_snoc, foldl_snoc, IH by (apply Z.div_pos; lia).
    replace (8 * Z.of_nat (S n)) with (8 + 8 * Z.of_nat n) by lia.
    rewrite Z.pow_add_r by lia. change (2 ^ 8) with 256.
    rewrite (Z.rem_mul_r value 256 (2 ^ (8 * Z.of_nat n)));
      [lia | lia | apply Z.pow_pos_nonneg; lia].
Qed.

End EncoderMore.

(** X1.  [litra_command] raises [KeyError] exactly for the names outside
    the four of [LITRA_COMMANDS], whatever the value: the name is looked
    up before the value is touched. *)
Theorem litra_command_KeyError_iff command value :
  litra_command command value = Raise KeyError ↔
    command ≠ "power_get" ∧ command ≠ "power"
    ∧ command ≠ "brightness" ∧ command ≠ "temperature".
Proof.
  unfold litra_command, getitem.
  destruct (LITRA_COMMANDS !! command) as [code|] eqn:Hc.
  - apply LITRA_COMMANDS_lookup in Hc. simpl. split.
    + unfold value_bytes, to_bytes.
      pose proof (ceil_div_bit_length_nonneg value).
      rewrite decide_False by lia.
      repeat case_decide; simpl; discriminate.
    + intros (? & ? & ? & ?). destruct Hc as [[]|[[]|[[]|[]]]]; done.
  - simpl. split; [intros _|done].
    repeat split; intros ->; vm_compute in Hc; discriminate.
Qed.

(** X2.  A negative value with a recognised command raises
    [OverflowError]: [to_bytes] is unsigned. *)
Theorem litra_command_negative command code value :
  LITRA_COMMANDS !! command = Some code →
  value < 0 →
  litra_command command value = Raise OverflowError.
Proof.
  intros Hc Hv. unfold litra_command, getitem. rewrite Hc. simpl.
  unfold value_bytes, to_bytes.
  pose proof (ceil_div_bit_length_nonneg value).
  rewrite decide_False by lia. by rewrite decide_True by lia.
Qed.

Lemma litra_command_negative_witness :
  litra_command "brightness" (-1) = Raise OverflowError.
Proof. apply (litra_command_negative "brightness" 0x4c (-1)); [reflexivity | lia]. Defined.

(** X3.  Round trip: the value field that the encoder emits for a
    non-negative value reads back, with [int.from_bytes], as that value. *)
Theorem value_bytes_from_bytes value :
  0 ≤ value →
  ∃ bs, value_bytes value = Ok bs ∧ from_bytes bs = Ok value.
Proof.
  intros Hv. eexists. split; [by apply value_bytes_nonneg|].
  unfold from_bytes. rewrite decide_True by apply be_bytes_byte.
  rewrite foldl_be_bytes by done. f_equal.
  apply Z.mod_small. split; [done|].
  pose proof (bit_length_spec value Hv).
  pose proof (ceil_div_8_bounds (bit_length value)).
  pose proof (ceil_div_bit_length_nonneg value).
  rewrite Z2Nat.id by done.
  assert (2 ^ bit_length value ≤ 2 ^ (8 * ceil_div (bit_length value) 8))
    by (apply Z.pow_le_mono_r; lia).
  lia.
Qed.

Lemma value_bytes_from_bytes_witness :
  ∃ bs, value_bytes 6500 = Ok bs ∧ from_bytes bs = Ok 6500.
Proof. apply (value_bytes_from_bytes 6500). lia. Defined.

(** X4.  The value field is the minimal encoding: for a positive value
    its first byte is not zero, so with [n] bytes after the first the
    value lies between [256^n] and [256^(n+1)]. *)
Theorem value_bytes_minimal value :
  0 < value →
  ∃ b bs, value_bytes value = Ok (b :: bs)
          ∧ 1 ≤ b ≤ 255
          ∧ 2 ^ (8 * Z.of_nat (length bs)) ≤ value
              < 2 ^ (8 * (Z.of_nat (length bs) + 1)).
Proof.
  intros Hv. rewrite value_bytes_nonneg by lia.
  pose proof (ceil_div_8_bounds (bit_length value)) as Hc.
  assert (Hbl : bit_length value = Z.log2 value + 1).
  { unfold bit_length. rewrite decide_False by lia. by rewrite Z.abs_eq by lia. }
  pose proof (Z.log2_nonneg value) as Hlog.
  pose proof (Z.log2_spec value Hv) as [Hlo Hhi].
  destruct (Z.to_nat (ceil_div (bit_length value) 8)) as [|n] eqn:Hn; [lia|].
  assert (Hlen : ceil_div (bit_length value) 8 = Z.of_nat n + 1) by lia.
  assert (Hpow : 0 < 2 ^ (8 * Z.of_nat n)) by (apply Z.pow_pos_nonneg; lia).
  assert (Hge : 2 ^ (8 * Z.of_nat n) ≤ value).
  { etrans; [|exact Hlo]. apply Z.pow_le_mono_r; lia. }
  assert (Hlt : value < 2 ^ (8 * (Z.of_nat n + 1))).
  { eapply Z.lt_le_trans; [exact Hhi|]. apply Z.pow_le_mono_r; lia. }
  eexists _, _. split; [reflexivity|]. rewrite length_be_bytes.
  split; [|done].
  change 255 with (Z.ones 8). rewrite Z.land_ones, Z.shiftr_div_pow2 by lia.
  assert (1 ≤ value / 2 ^ (8 * Z.of_nat n) < 256).
  { split.
    - apply Z.div_le_lower_bound; lia.
    - apply Z.div_lt_upper_bound; [lia|].
      replace (8 * (Z.of_nat n + 1)) with (8 * Z.of_nat n + 8) in Hlt by lia.
      rewrite Z.pow_add_r in Hlt by lia. change (2 ^ 8) with 256 in Hlt. lia. }
  change (2 ^ 8) with 256. change (Z.ones 8) with 255.
  rewrite Z.mod_small by lia. lia.
Qed.

Lemma value_bytes_minimal_witness :
  ∃ b bs, value_bytes 2700 = Ok (b :: bs)
          ∧ 1 ≤ b ≤ 255
          ∧ 2 ^ (8 * Z.of_nat (length bs)) ≤ 2700
              < 2 ^ (8 * (Z.of_nat (length bs) + 1)).
Proof. apply (value_bytes_minimal 2700). lia. Defined.

(** X5.  Every item of a buffer that [litra_command] returns is a byte,
    from 0 to 255, whatever the size of the value. *)
Theorem litra_command_bytes command value buf :
  litra_command command value = Ok buf →
  Forall (λ b, 0 ≤ b < 256) buf.
Proof.
  unfold litra_command, getitem.
  destruct (LITRA_COMMANDS !! command) as [code|] eqn:Hc; [|done]. simpl.
  unfold value_bytes, to_bytes. repeat case_decide; try done. simpl.
  intros [= <-]. apply LITRA_COMMANDS_lookup in Hc.
  repeat first [apply Forall_app_2 | apply Forall_cons_2 | apply Forall_nil_2];
    try lia.
  - apply be_bytes_byte.
  - apply Forall_replicate. lia.
Qed.

Lemma litra_command_bytes_witness :
  Forall (λ b, 0 ≤ b < 256) ([0x11; 0xff; 0x04; 0x9c; 0x19; 0x64] ++ replicate 14 0).
Proof. apply (litra_command_bytes "temperature" 6500). reflexivity. Defined.

Lemma bit_length_mul_256 value : 0 < value → bit_length (256 * value) = bit_length value + 8.
Proof.
  intros Hv. unfold bit_length. rewrite !decide_False by lia.
  rewrite !Z.abs_eq by lia.
  replace (256 * value) with (value * 2 ^ 8) by lia.
  rewrite Z.log2_mul_pow2 by lia. lia.
Qed.

Lemma ceil_div_add_8 n : ceil_div (n + 8) 8 = ceil_div n 8 + 1.
Proof.
  unfold ceil_div. replace (- (n + 8)) with (- n + (-1) * 8) by lia.
  rewrite Z.div_add by lia. lia.
Qed.

(** X6.  The encoding is not injective: the value bytes are left-aligned
    and padded with zeros, so a positive value and 256 times that value
    give the same buffer whenever the larger one still fits in 16 bytes. *)
Theorem litra_command_times_256 command code value :
  LITRA_COMMANDS !! command = Some code →
  0 < value →
  ceil_div (bit_length (256 * value)) 8 ≤ 16 →
  litra_command command (256 * value) = litra_command command value.
Proof.
  intros Hc Hv Hfit.
  rewrite !(litra_command_unfold _ code) by (done || lia). cbv zeta.
  rewrite bit_length_mul_256, ceil_div_add_8 in * by done.
  pose proof (ceil_div_bit_length_nonneg value) as Hn.
  rewrite Z2Nat.inj_add by lia. change (Z.to_nat 1) with 1%nat.
  rewrite Nat.add_1_r, be_bytes_snoc.
  replace (256 * value / 256) with value
    by (rewrite Z.mul_comm; symmetry; apply Z.div_mul; lia).
  replace ((256 * value) `mod` 256) with 0
    by (symmetry; rewrite Z.mul_comm; apply Z.mod_mul; lia).
  rewrite !length_app, !length_be_bytes.
  change (length [17; 255; 4; code]) with 4%nat. change (length [0]) with 1%nat.
  replace (Z.to_nat (20 - Z.of_nat (4 + Z.to_nat (ceil_div (bit_length value) 8))))
    with (S (Z.to_nat (20 - Z.of_nat (4 + (Z.to_nat (ceil_div (bit_length value) 8) + 1)))))
    by lia.
  rewrite replicate_S. by rewrite <- !app_assoc.
Qed.

Lemma litra_command_times_256_witness :
  litra_command "brightness" (256 * 100) = litra_command "brightness" 100.
Proof.
  apply (litra_command_times_256 "brightness" 0x4c 100);
    [reflexivity | lia | vm_compute; discriminate].
Defined.

(** ** Session creation and the transport *)

Section Session.

Lemma LITRA_PRODUCTS_lookup idProduct p :
  LITRA_PRODUCTS !! idProduct = Some p ↔
    (idProduct = 0xc900
     ∧ p = {| name := "Glow"; endpoint := 0x02; buffer_length := 64 |})
    ∨ (idProduct = 0xc901
       ∧ p = {| name := "Beam"; endpoint := 0x01; buffer_length := 32 |}).
Proof.
  unfold LITRA_PRODUCTS.
  rewrite !lookup_insert_Some, lookup_empty.
  split; [intros [[]|[? [[]|[? ?]]]]; auto; done | intros [[]|[]]; subst; auto].
Qed.

(** What [setup_device] returns, from the answers of the device. *)
Lemma setup_device_result d reattach :
  (setup_device d reattach).2 =
    match dev_is_kernel_driver_active d with
    | Raise e => Raise e
    | Ok false => Ok reattach
    | Ok true =>
        match dev_detach_kernel_driver d with
        | Raise e => Raise e
        | Ok _ =>
            match dev_set_configuration d with
            | Raise e => Raise e
            | Ok _ => Ok true
            end
        end
    end.
Proof.
  unfold setup_device, usb, mbind, T_bind, mret, T_ret.
  destruct (dev_is_kernel_driver_active d) as [[]|]; [|done|done].
  destruct (dev_detach_kernel_driver d); [|done].
  by destruct (dev_set_configuration d).
Qed.

(** The driver is detached exactly when the device says one is active. *)
Lemma setup_device_detaches d reattach :
  (d, UsbDetachKernelDriver 0) ∈ (setup_device d reattach).1 ↔
    dev_is_kernel_driver_active d = Ok true.
Proof.
  unfold setup_device, usb, mbind, T_bind, mret, T_ret.
  destruct (dev_is_kernel_driver_active d) as [[]|]; simpl.
  - destruct (dev_detach_kernel_driver d); simpl;
      [destruct (dev_set_configuration d); simpl|]; set_solver.
  - set_solver.
  - set_solver.
Qed.

Lemma init_unfold usb_device p :
  dev_idVendor usb_device = LOGITECH_VENDOR_ID →
  LITRA_PRODUCTS !! dev_idProduct usb_device = Some p →
  __init__ usb_device =
    (reattach ← (setup_device usb_device false).2;
     Ok {| device := usb_device;
           idVendor := dev_idVendor usb_device;
           idProduct := dev_idProduct usb_device;
           reattach := reattach;
           self_endpoint := endpoint p;
           self_buffer_length := buffer_length p;
           __power := PyNone; __temperature := PyNone; __brightness := PyNone |}).
Proof.
  intros Hv Hp. unfold __init__, get_params, getitem.
  rewrite decide_False by (by intros ?).
  rewrite decide_False by (by rewrite Hp).
  by rewrite Hp.
Qed.

Lemma init_ok_inv usb_device self :
  __init__ usb_device = Ok self →
  dev_idVendor usb_device = LOGITECH_VENDOR_ID
  ∧ (dev_idProduct usb_device = 0xc900 ∨ dev_idProduct usb_device = 0xc901).
Proof.
  intros H. unfold __init__ in H.
  case_decide as Hv; [done|]. case_decide as Hp; [done|].
  split; [by destruct (decide (dev_idVendor usb_device = LOGITECH_VENDOR_ID))|].
  destruct (LITRA_PRODUCTS !! dev_idProduct usb_device) as [p|] eqn:Hl; [|done].
  apply LITRA_PRODUCTS_lookup in Hl. destruct Hl as [[? _]|[? _]]; auto.
Qed.

Lemma init_product usb_device self :
  __init__ usb_device = Ok self →
  ∃ p, LITRA_PRODUCTS !! dev_idProduct usb_device = Some p
       ∧ dev_idVendor usb_device = LOGITECH_VENDOR_ID.
Proof.
  intros H. destruct (init_ok_inv _ _ H) as [Hv [Hp|Hp]];
    rewrite Hp; eexists; split; done.
Qed.

(** The object that [__init__] returns. *)
Lemma init_ok_self usb_device self p :
  __init__ usb_device = Ok self →
  LITRA_PRODUCTS !! dev_idProduct usb_device = Some p →
  (setup_device usb_device false).2 = Ok (reattach self)
  ∧ self = {| device := usb_device;
              idVendor := dev_idVendor usb_device;
              idProduct := dev_idProduct usb_device;
              reattach := reattach self;
              self_endpoint := endpoint p;
              self_buffer_length := buffer_length p;
              __power := PyNone; __temperature := PyNone; __brightness := PyNone |}.
Proof.
  intros H Hl. destruct (init_product _ _ H) as (p' & Hl' & Hv).
  rewrite (init_unfold usb_device p Hv Hl) in H.
  unfold mbind, result_bind in H.
  destruct (setup_device usb_device false).2 as [r|]; [|done].
  by injection H as <-.
Qed.

(** A session remembers to reattach exactly when the device said that a
    kernel driver was active. *)
Lemma init_ok_active usb_device self :
  __init__ usb_device = Ok self →
  dev_is_kernel_driver_active usb_device = Ok (reattach self).
Proof.
  intros H. destruct (init_product _ _ H) as (p & Hl & _).
  destruct (init_ok_self _ _ _ H Hl) as [Hs _].
  rewrite setup_device_result in Hs.
  destruct (dev_is_kernel_driver_active usb_device) as [[]|]; [|done|done].
  destruct (dev_detach_kernel_driver usb_device); [|done].
  destruct (dev_set_configuration usb_device); [|done]. done.
Qed.

End Session.

(** X7.  [__init__] returns a session exactly when the device has the
    Logitech vendor id 0x046d and the product id of a Glow (0xc900) or a
    Beam (0xc901), and the device answers what [setup_device] asks of it:
    either no kernel driver is active, or one is and both detaching it and
    setting the configuration return.  Any other device gets
    [RuntimeError], whatever it would answer; for a listed device, the
    exception of the first transport call that fails leaves [__init__]. *)
Theorem init_outcome usb_device :
  ((∃ self, __init__ usb_device = Ok self) ↔
     dev_idVendor usb_device = 0x046d
     ∧ (dev_idProduct usb_device = 0xc900 ∨ dev_idProduct usb_device = 0xc901)
     ∧ (dev_is_kernel_driver_active usb_device = Ok false
        ∨ dev_is_kernel_driver_active usb_device = Ok true
          ∧ dev_detach_kernel_driver usb_device = Ok tt
          ∧ dev_set_configuration usb_device = Ok tt))
  ∧ (dev_idVendor usb_device ≠ 0x046d
     ∨ dev_idProduct usb_device ≠ 0xc900 ∧ dev_idProduct usb_device ≠ 0xc901 →
     __init__ usb_device = Raise RuntimeError)
  ∧ (∀ e,
       dev_idVendor usb_device = 0x046d →
       dev_idProduct usb_device = 0xc900 ∨ dev_idProduct usb_device = 0xc901 →
       dev_is_kernel_driver_active usb_device = Raise e
       ∨ dev_is_kernel_driver_active usb_device = Ok true
         ∧ (dev_detach_kernel_driver usb_device = Raise e
            ∨ dev_detach_kernel_driver usb_device = Ok tt
              ∧ dev_set_configuration usb_device = Raise e) →
       __init__ usb_device = Raise e).
Proof.
  assert (Hlisted : dev_idVendor usb_device = 0x046d →
            dev_idProduct usb_device = 0xc900 ∨ dev_idProduct usb_device = 0xc901 →
            ∃ p, __init__ usb_device =
              (reattach ← (setup_device usb_device false).2;
               Ok {| device := usb_device;
                     idVendor := dev_idVendor usb_device;
                     idProduct := dev_idProduct usb_device;
                     reattach := reattach;
                     self_endpoint := endpoint p;
                     self_buffer_length := buffer_length p;
                     __power := PyNone; __temperature := PyNone;
                     __brightness := PyNone |})).
  { intros Hv Hp.
    assert (∃ p, LITRA_PRODUCTS !! dev_idProduct usb_device = Some p) as [p Hl].
    { destruct Hp as [-> | ->]; eexists; reflexivity. }
    exists p. by apply init_unfold. }
  split; [split|split].
  - intros [self H]. destruct (init_ok_inv _ _ H) as [Hv Hp].
    split; [done|]. split; [done|].
    pose proof (init_ok_active _ _ H) as Ha.
    destruct (init_product _ _ H) as (p & Hl & _).
    destruct (init_ok_self _ _ _ H Hl) as [Hs _].
    rewrite setup_device_result, Ha in Hs.
    destruct (reattach self); [right|by left].
    split; [done|].
    destruct (dev_detach_kernel_driver usb_device) as [[]|]; [|done].
    by destruct (dev_set_configuration usb_device) as [[]|].
  - intros (Hv & Hp & Hs). destruct (Hlisted Hv Hp) as [p ->].
    rewrite setup_device_result.
    destruct Hs as [-> | (-> & -> & ->)]; by eexists.
  - intros Hbad. unfold __init__.
    destruct Hbad as [Hv | [Hg Hb]]; [by rewrite decide_True|].
    case_decide; [done|]. rewrite decide_True; [done|].
    destruct (LITRA_PRODUCTS !! dev_idProduct usb_device) as [p|] eqn:Hl; [|done].
    apply LITRA_PRODUCTS_lookup in Hl. by destruct Hl as [[? _]|[? _]].
  - intros e Hv Hp Hs. destruct (Hlisted Hv Hp) as [p ->].
    rewrite setup_device_result.
    destruct Hs as [-> | (-> & [-> | (-> & ->)])]; done.
Qed.

(** X8.  A session that [__init__] returns holds the device it was given,
    has the endpoint and the buffer length that [LITRA_PRODUCTS] lists for
    its product (2 and 64 for a Glow, 1 and 32 for a Beam), remembers to
    reattach exactly when a kernel driver was active, and starts with
    power, brightness and temperature all [None]. *)
Theorem init_fields usb_device self :
  __init__ usb_device = Ok self →
  device self = usb_device
  ∧ idVendor self = 0x046d
  ∧ idProduct self = dev_idProduct usb_device
  ∧ dev_is_kernel_driver_active usb_device = Ok (reattach self)
  ∧ (idProduct self = 0xc900 ∧ self_endpoint self = 2 ∧ self_buffer_length self = 64
     ∨ idProduct self = 0xc901 ∧ self_endpoint self = 1 ∧ self_buffer_length self = 32)
  ∧ __power self = PyNone ∧ __brightness self = PyNone ∧ __temperature self = PyNone.
Proof.
  intros H.
  pose proof (init_ok_active _ _ H) as Ha.
  destruct (init_product _ _ H) as (p & Hl & Hv).
  destruct (init_ok_self _ _ _ H Hl) as [_ ->]. simpl in *.
  apply LITRA_PRODUCTS_lookup in Hl.
  destruct Hl as [[? ->]|[? ->]]; simpl; auto 10.
Qed.

Lemma init_fields_witness :
  device glow_session = glow_device
  ∧ idVendor glow_session = 0x046d
  ∧ idProduct glow_session = dev_idProduct glow_device
  ∧ dev_is_kernel_driver_active glow_device = Ok (reattach glow_session)
  ∧ (idProduct glow_session = 0xc900 ∧ self_endpoint glow_session = 2
       ∧ self_buffer_length glow_session = 64
     ∨ idProduct glow_session = 0xc901 ∧ self_endpoint glow_session = 1
       ∧ self_buffer_length glow_session = 32)
  ∧ __power glow_session = PyNone ∧ __brightness glow_session = PyNone
  ∧ __temperature glow_session = PyNone.
Proof. apply (init_fields glow_device glow_session). reflexivity. Defined.

(** X9.  [teardown_device] on a session that [__init__] returned.  It
    first disposes of the session's own device, and an exception of that
    call ends it.  When no kernel driver was active at setup it does no
    more.  When one was, it attaches the kernel driver of the device that
    the module-level name [dev] is bound to, which need not be the
    session's device, and raises [NameError] without attaching anything
    when [dev] is unbound.  The attach is attempted exactly when
    [setup_device] detached the driver. *)
Theorem teardown_device_calls usb_device dev self :
  __init__ usb_device = Ok self →
  (∃ rest, (teardown_device dev self).1 = (usb_device, UsbDisposeResources) :: rest)
  ∧ (∀ e, dev_dispose_resources usb_device = Raise e →
       teardown_device dev self = ([(usb_device, UsbDisposeResources)], Raise e))
  ∧ (dev_dispose_resources usb_device = Ok tt →
       (dev_is_kernel_driver_active usb_device = Ok false →
        teardown_device dev self = ([(usb_device, UsbDisposeResources)], Ok tt))
       ∧ (dev_is_kernel_driver_active usb_device = Ok true →
          (dev = None →
           teardown_device dev self
           = ([(usb_device, UsbDisposeResources)], Raise NameError))
          ∧ (∀ d, dev = Some d →
             teardown_device dev self
             = ([(usb_device, UsbDisposeResources); (d, UsbAttachKernelDriver 0)],
                dev_attach_kernel_driver d))))
  ∧ ((usb_device, UsbDetachKernelDriver 0) ∈ (setup_device usb_device false).1 ↔
       reattach self = true).
Proof.
  intros H.
  pose proof (init_ok_active _ _ H) as Ha.
  destruct (init_product _ _ H) as (p & Hl & _).
  destruct (init_ok_self _ _ _ H Hl) as [_ Hself].
  assert (Hd : device self = usb_device) by (by rewrite Hself).
  unfold teardown_device, usb, mbind, T_bind. rewrite Hd.
  split; [|split; [|split]].
  - destruct (dev_dispose_resources usb_device); [|by eexists].
    destruct (reattach self); [|by eexists].
    destruct dev as [d|]; by eexists.
  - by intros e ->.
  - intros ->. split; intros Hact; rewrite Hact in Ha; injection Ha as <-; [done|].
    split; [by intros ->|]. intros d ->. simpl.
    by destruct (dev_attach_kernel_driver d).
  - rewrite setup_device_detaches, Ha. split; [by intros [= ->]|by intros ->].
Qed.

Lemma teardown_device_calls_witness :
  teardown_device (Some glow_device) glow_session
  = ([(glow_device, UsbDisposeResources); (glow_device, UsbAttachKernelDriver 0)], Ok tt)
  ∧ teardown_device None glow_session
    = ([(glow_device, UsbDisposeResources)], Raise NameError).
Proof.
  split.
  - pose proof (teardown_device_calls glow_device (Some glow_device) glow_session eq_refl)
      as (_ & _ & H & _).
    exact (proj2 (proj2 (H eq_refl) eq_refl) glow_device eq_refl).
  - pose proof (teardown_device_calls glow_device None glow_session eq_refl)
      as (_ & _ & H & _).
    exact (proj1 (proj2 (H eq_refl) eq_refl) eq_refl).
Defined.

(** X10.  [on] and [off] on a session that [__init__] returned.  Both
    talk to the device that the module-level name [dev] is bound to, not
    to the session's own device, and raise [NameError] before any
    transport call when [dev] is unbound.  Otherwise each writes one
    20-byte power command with the 3000 ms timeout to the endpoint of the
    session's product, and then reads that product's buffer length from
    the same endpoint; an exception of the write leaves the method before
    the read, and one of the read leaves it too.  The two commands differ
    only in the byte after the command code. *)
Theorem on_off_calls usb_device dev self p :
  __init__ usb_device = Ok self →
  LITRA_PRODUCTS !! dev_idProduct usb_device = Some p →
  (dev = None →
   on dev self = ([], Raise NameError) ∧ off dev self = ([], Raise NameError))
  ∧ (∀ d, dev = Some d →
       let write b :=
         (d, UsbWrite (endpoint p) ([0x11; 0xff; 0x04; 0x1c; b] ++ replicate 15 0) 3000) in
       let read := (d, UsbRead (endpoint p) (buffer_length p)) in
       (∀ e, dev_write d = Raise e →
          on dev self = ([write 1], Raise e) ∧ off dev self = ([write 0], Raise e))
       ∧ (∀ n e, dev_write d = Ok n → dev_read d = Raise e →
            on dev self = ([write 1; read], Raise e)
            ∧ off dev self = ([write 0; read], Raise e))
       ∧ (∀ n r, dev_write d = Ok n → dev_read d = Ok r →
            on dev self = ([write 1; read], Ok tt)
            ∧ off dev self = ([write 0; read], Ok tt))).
Proof.
  intros H Hl. destruct (init_ok_self _ _ _ H Hl) as [_ ->].
  split; [by intros ->|].
  intros d -> write read. subst write read.
  unfold on, off, usb, global_dev, T_lift, mbind, T_bind, mret, T_ret. simpl.
  split; [|split].
  - by intros e ->.
  - by intros n e -> ->.
  - by intros n r -> ->.
Qed.

Lemma on_off_calls_witness :
  (on (Some glow_device) glow_session
   = ([(glow_device, UsbWrite 2 ([0x11; 0xff; 0x04; 0x1c; 1] ++ replicate 15 0) 3000);
       (glow_device, UsbRead 2 64)], Ok tt)
   ∧ off (Some glow_device) glow_session
     = ([(glow_device, UsbWrite 2 ([0x11; 0xff; 0x04; 0x1c; 0] ++ replicate 15 0) 3000);
         (glow_device, UsbRead 2 64)], Ok tt))
  ∧ (on None glow_session = ([], Raise NameError)
     ∧ off None glow_session = ([], Raise NameError)).
Proof.
  split.
  - pose proof (on_off_calls glow_device (Some glow_device) glow_session
                  {| name := "Glow"; endpoint := 0x02; buffer_length := 64 |}
                  eq_refl eq_refl) as [_ H].
    exact (proj2 (proj2 (H glow_device eq_refl)) 20
             ([0x11; 0xff; 0x04; 0; 1] ++ replicate 59 0) eq_refl eq_refl).
  - pose proof (on_off_calls glow_device None glow_session
                  {| name := "Glow"; endpoint := 0x02; buffer_length := 64 |}
                  eq_refl eq_refl) as [H _].
    exact (H eq_refl).
Defined.

(** ** The setters on arbitrary values *)

Section SettersMore.

Lemma power_setter_bool b self :
  power_setter (PyBool b) self = (set___power (PyBool b) self, Ok tt).
Proof. reflexivity. Qed.

Lemma power_setter_not_bool value self :
  (∀ b, value ≠ PyBool b) → power_setter value self = (self, Raise ValueError).
Proof. intros Hnb. destruct value; try done. by destruct (Hnb b). Qed.

Lemma brightness_setter_bool b self :
  brightness_setter (PyBool b) self = (self, Ok tt).
Proof.
  unfold brightness_setter, isinstance_int, negb, mbind, M_bind, lift.
  by rewrite between_bool.
Qed.

Lemma brightness_setter_frame_aux value self :
  (brightness_setter value self).1 = self
  ∨ ∃ z, value = PyInt z ∧ 20 ≤ z ≤ 250
         ∧ (brightness_setter value self).1 = set___brightness (PyInt z) self.
Proof.
  destruct value as [|b|z|f|s]; try by left.
  - left. by rewrite brightness_setter_bool.
  - destruct (decide (20 ≤ z ≤ 250)) as [Hz|Hz].
    + right. exists z. by rewrite brightness_setter_in_range.
    + left. destruct (decide (10 ^ int_max_str_digits ≤ Z.abs z)).
      * by rewrite brightness_setter_long.
      * by rewrite brightness_setter_out_of_range by lia.
Qed.

Lemma between_float f : ∃ c, between 2700 (PyFloat f) 6500 = Ok c.
Proof.
  unfold between, le. simpl.
  destruct (compare_int_float 2700 f) as [[]|]; simpl; eauto.
Qed.

Lemma temperature_setter_frame_aux value self :
  (temperature_setter value self).1 = self
  ∨ temperature_setter value self = (set___temperature value self, Ok tt).
Proof.
  unfold temperature_setter, mbind, M_bind, lift.
  destruct (between 2700 value 6500) as [[]|];
    cbv beta iota delta [negb];
    destruct (format_value value) as [[]|]; auto.
Qed.

End SettersMore.

(** X11.  The power setter stores a value exactly when it is a [bool]:
    it returns, the power of the object is then that bool, and brightness
    and temperature are as before.  Anything else, the ints 0 and 1
    included, raises [ValueError] and leaves the object as it was. *)
Theorem power_setter_outcome value self :
  (∀ b, value = PyBool b →
     (power_setter value self).2 = Ok tt
     ∧ __power (power_setter value self).1 = PyBool b
     ∧ __brightness (power_setter value self).1 = __brightness self
     ∧ __temperature (power_setter value self).1 = __temperature self)
  ∧ ((∀ b, value ≠ PyBool b) → power_setter value self = (self, Raise ValueError))
  ∧ power_setter (PyInt 1) self = (self, Raise ValueError)
  ∧ power_setter (PyInt 0) self = (self, Raise ValueError).
Proof.
  split; [by intros b ->|]. split; [|done].
  apply power_setter_not_bool.
Qed.

(** X12.  The brightness setter on [None], a bool, an int, a float or a
    str.  [None], a float, a str and a bool are dropped: the setter
    returns and the object is as it was.  An int from 20 to 250 is
    stored: the setter returns, the brightness of the object is then that
    int, and power and temperature are as before.  An int outside 20 to
    250 is dropped in the same way as long as it has at most 4300
    decimal digits; with more digits the message cannot be made, and the
    setter raises [ValueError], the object being as it was.  19 and 251
    are dropped, 20 and 250 are stored. *)
Theorem brightness_setter_outcomes self :
  brightness_setter PyNone self = (self, Ok tt)
  ∧ (∀ f, brightness_setter (PyFloat f) self = (self, Ok tt))
  ∧ (∀ s, brightness_setter (PyStr s) self = (self, Ok tt))
  ∧ (∀ b, brightness_setter (PyBool b) self = (self, Ok tt))
  ∧ (∀ z, 20 ≤ z ≤ 250 →
       (brightness_setter (PyInt z) self).2 = Ok tt
       ∧ __brightness (brightness_setter (PyInt z) self).1 = PyInt z
       ∧ __power (brightness_setter (PyInt z) self).1 = __power self
       ∧ __temperature (brightness_setter (PyInt z) self).1 = __temperature self)
  ∧ (∀ z, z < 20 ∨ 250 < z →
       Z.abs z < 10 ^ int_max_str_digits →
       brightness_setter (PyInt z) self = (self, Ok tt))
  ∧ (∀ z, 10 ^ int_max_str_digits ≤ Z.abs z →
       brightness_setter (PyInt z) self = (self, Raise ValueError))
  ∧ (brightness_setter (PyInt 19) self = (self, Ok tt)
     ∧ brightness_setter (PyInt 251) self = (self, Ok tt)
     ∧ __brightness (brightness_setter (PyInt 20) self).1 = PyInt 20
     ∧ __brightness (brightness_setter (PyInt 250) self).1 = PyInt 250).
Proof.
  split; [done|]. split; [done|]. split; [done|].
  split; [intros b; apply brightness_setter_bool|].
  split; [intros z Hz; by rewrite brightness_setter_in_range|].
  split; [intros z Hz Hs; by apply brightness_setter_out_of_range|].
  split; [intros z Hs; by apply brightness_setter_long|].
  split; [|split]; [| |by rewrite !brightness_setter_in_range by lia].
  - apply brightness_setter_out_of_range_small; [lia|]. by vm_compute.
  - apply brightness_setter_out_of_range_small; [lia|]. by vm_compute.
Qed.

(** X13.  The temperature setter on values that are not ints.  [None]
    and a str cannot be compared with 2700 and raise [TypeError]; a bool
    counts as 0 or 1 and raises [ValueError]; a float is stored when
    [2700 <= value <= 6500] holds, the temperature of the object being
    then that float, and raises [ValueError] otherwise, as NaN and the
    infinities do.  Whenever the setter raises, the object is as it
    was. *)
Theorem temperature_setter_outcomes value self :
  temperature_setter PyNone self = (self, Raise TypeError)
  ∧ (∀ s, temperature_setter (PyStr s) self = (self, Raise TypeError))
  ∧ (∀ b, temperature_setter (PyBool b) self = (self, Raise ValueError))
  ∧ (∀ f, between 2700 (PyFloat f) 6500 = Ok true
          ∧ (temperature_setter (PyFloat f) self).2 = Ok tt
          ∧ __temperature (temperature_setter (PyFloat f) self).1 = PyFloat f
          ∨ between 2700 (PyFloat f) 6500 = Ok false
            ∧ temperature_setter (PyFloat f) self = (self, Raise ValueError))
  ∧ temperature_setter (PyFloat nan) self = (self, Raise ValueError)
  ∧ temperature_setter (PyFloat infinity) self = (self, Raise ValueError)
  ∧ temperature_setter (PyFloat neg_infinity) self = (self, Raise ValueError)
  ∧ ((temperature_setter value self).2 ≠ Ok tt →
     (temperature_setter value self).1 = self).
Proof.
  split; [done|]. split; [done|].
  split.
  { intros b. unfold temperature_setter, mbind, M_bind, lift.
    by rewrite between_bool. }
  split.
  { intros f. destruct (between_float f) as [[] Hc]; [left|right];
      (split; [done|]); unfold temperature_setter, mbind, M_bind, lift;
      by rewrite Hc. }
  split; [done|]. split; [done|]. split; [done|].
  intros Hr. destruct (temperature_setter_frame_aux value self) as [H|H]; [done|].
  by rewrite H in Hr.
Qed.

(** X14.  Frame: no call on a session (an assignment to a property or a
    report handed to [process_result]) changes the session's device, vendor id,
    product id, endpoint, buffer length or reattach flag, and an
    assignment to one property never changes the other two. *)
Theorem run_call_frame c self :
  let self' := (run_call c self).1 in
  (device self' = device self
   ∧ idVendor self' = idVendor self ∧ idProduct self' = idProduct self
   ∧ self_endpoint self' = self_endpoint self
   ∧ self_buffer_length self' = self_buffer_length self
   ∧ reattach self' = reattach self)
  ∧ (∀ v, c = AssignPower v →
       __brightness self' = __brightness self ∧ __temperature self' = __temperature self)
  ∧ (∀ v, c = AssignBrightness v →
       __power self' = __power self ∧ __temperature self' = __temperature self)
  ∧ (∀ v, c = AssignTemperature v →
       __power self' = __power self ∧ __brightness self' = __brightness self).
Proof.
  assert (Hp : ∀ v, power_setter v self = (self, Raise ValueError)
                    ∨ power_setter v self = (set___power v self, Ok tt)).
  { intros v. destruct v; auto. }
  assert (Hb : ∀ v, (brightness_setter v self).1 = self
                    ∨ (brightness_setter v self).1 = set___brightness v self).
  { intros v. destruct (brightness_setter_frame_aux v self) as [?|(z & -> & _ & ?)]; auto. }
  assert (Ht : ∀ v, (temperature_setter v self).1 = self
                    ∨ (temperature_setter v self).1 = set___temperature v self).
  { intros v. destruct (temperature_setter_frame_aux v self) as [?| ->]; auto. }
  assert (Hs : ∀ a v, (setattr a v self).1 = self
                      ∨ (setattr a v self).1 = set___power v self
                      ∨ (setattr a v self).1 = set___brightness v self
                      ∨ (setattr a v self).1 = set___temperature v self).
  { intros a v. unfold setattr. repeat case_decide; auto.
    - destruct (Hp v) as [-> | ->]; auto.
    - destruct (Hb v) as [-> | ->]; auto.
    - destruct (Ht v) as [-> | ->]; auto. }
  intros self'. subst self'. split.
  - destruct c as [v|v|v|result]; simpl.
    + by destruct (Hp v) as [-> | ->].
    + by destruct (Hb v) as [-> | ->].
    + by destruct (Ht v) as [-> | ->].
    + destruct result as [|b0 [|b1 [|b2 [|input_code input_data]]]];
        try (rewrite process_result_short by (simpl; lia); done).
      rewrite process_result_long. unfold mbind, M_bind, lift, getitem.
      destruct (INPUT_CODES !! input_code) as [attr_name|]; [|done].
      destruct (INPUT_VALIDATION !! input_code) as [f|]; [|done].
      unfold result_bind. destruct (f input_data) as [value|e]; [|done].
      by destruct (Hs attr_name value) as [-> | [-> | [-> | ->]]].
  - split; [|split]; intros v ->; simpl.
    + by destruct (Hp v) as [-> | ->].
    + by destruct (Hb v) as [-> | ->].
    + by destruct (Ht v) as [-> | ->].
Qed.

(** ** Validators and reports, case by case *)

Section ReportsMore.

Lemma from_bytes_2 hi lo :
  0 ≤ hi < 256 → 0 ≤ lo < 256 → from_bytes [hi; lo] = Ok (hi * 256 + lo).
Proof.
  intros Hhi Hlo. unfold from_bytes.
  rewrite decide_True by (repeat constructor; lia). simpl. f_equal.
Qed.

Lemma validate_brightness_2 hi lo rest :
  0 ≤ hi < 256 → 0 ≤ lo < 256 →
  __validate_brightness (hi :: lo :: rest) = Ok (PyInt (hi * 256 + lo)).
Proof.
  intros Hhi Hlo. unfold __validate_brightness, slice. simpl.
  change (take 0 rest) with (@nil Z). by rewrite from_bytes_2.
Qed.

Lemma validate_temperature_2 hi lo rest :
  0 ≤ hi < 256 → 0 ≤ lo < 256 →
  __validate_temperature (hi :: lo :: rest) = Ok (PyInt (hi * 256 + lo)).
Proof.
  intros Hhi Hlo. unfold __validate_temperature, slice. simpl.
  change (take 0 rest) with (@nil Z). by rewrite from_bytes_2.
Qed.

Lemma process_result_field b0 b1 b2 input_code input_data attr_name f value self :
  INPUT_CODES !! input_code = Some attr_name →
  INPUT_VALIDATION !! input_code = Some f →
  f input_data = Ok value →
  process_result (b0 :: b1 :: b2 :: input_code :: input_data) self
  = setattr attr_name value self.
Proof.
  intros Hc Hf Hv. rewrite process_result_long.
  unfold mbind at 1 2, M_bind, lift, getitem. rewrite Hc, Hf. simpl. by rewrite Hv.
Qed.

Lemma process_result_field_error b0 b1 b2 input_code input_data attr_name f e self :
  INPUT_CODES !! input_code = Some attr_name →
  INPUT_VALIDATION !! input_code = Some f →
  f input_data = Raise e →
  process_result (b0 :: b1 :: b2 :: input_code :: input_data) self = (self, Raise e).
Proof.
  intros Hc Hf Hv. rewrite process_result_long.
  unfold mbind at 1 2, M_bind, lift, getitem. rewrite Hc, Hf. simpl. by rewrite Hv.
Qed.

End ReportsMore.

(** X15.  The brightness and temperature validators read the first two
    payload bytes as one big-endian number, between 0 and 65535, and
    ignore everything after them. *)
Theorem validate_two_bytes hi lo rest :
  0 ≤ hi < 256 → 0 ≤ lo < 256 →
  __validate_brightness (hi :: lo :: rest) = Ok (PyInt (hi * 256 + lo))
  ∧ __validate_temperature (hi :: lo :: rest) = Ok (PyInt (hi * 256 + lo))
  ∧ 0 ≤ hi * 256 + lo ≤ 65535.
Proof.
  intros Hhi Hlo.
  rewrite validate_brightness_2, validate_temperature_2 by done.
  repeat split; lia.
Qed.

Lemma validate_two_bytes_witness :
  __validate_brightness (0 :: 250 :: [9; 9]) = Ok (PyInt (0 * 256 + 250))
  ∧ __validate_temperature (0 :: 250 :: [9; 9]) = Ok (PyInt (0 * 256 + 250))
  ∧ 0 ≤ 0 * 256 + 250 ≤ 65535.
Proof. apply (validate_two_bytes 0 250 [9; 9]); lia. Defined.

(** X16.  A report of fewer than four items raises [IndexError] and
    changes nothing: there is no field code to pop. *)
Theorem process_result_short_report (result : list Z) self :
  (length result < 4)%nat →
  process_result result self = (self, Raise IndexError).
Proof. apply process_result_short. Qed.

Lemma process_result_short_report_witness :
  process_result [0x11; 0xff; 0x04] glow_session = (glow_session, Raise IndexError).
Proof. apply (process_result_short_report [0x11; 0xff; 0x04]). simpl. lia. Defined.

(** X17.  [process_result] does not look at the first three items of a
    report: two reports that agree from the field code on are handled
    alike. *)
Theorem process_result_ignores_prefix a0 a1 a2 b0 b1 b2 (rest : list Z) self :
  process_result (a0 :: a1 :: a2 :: rest) self
  = process_result (b0 :: b1 :: b2 :: rest) self.
Proof.
  destruct rest as [|input_code input_data].
  - by rewrite !process_result_short by (simpl; lia).
  - by rewrite !process_result_long.
Qed.

(** X18.  A brightness report never raises: its two payload bytes are
    read as one number; when that number lies from 20 to 250 the
    brightness of the object is then that number, with power and
    temperature as before, and otherwise the report is dropped and the
    object is as it was (so any report with a non-zero high byte is
    dropped). *)
Theorem process_result_brightness b0 b1 b2 hi lo rest self :
  0 ≤ hi < 256 → 0 ≤ lo < 256 →
  (process_result (b0 :: b1 :: b2 :: 16 :: hi :: lo :: rest) self).2 = Ok tt
  ∧ (20 ≤ hi * 256 + lo ≤ 250 →
     __brightness (process_result (b0 :: b1 :: b2 :: 16 :: hi :: lo :: rest) self).1
     = PyInt (hi * 256 + lo)
     ∧ __power (process_result (b0 :: b1 :: b2 :: 16 :: hi :: lo :: rest) self).1
       = __power self
     ∧ __temperature (process_result (b0 :: b1 :: b2 :: 16 :: hi :: lo :: rest) self).1
       = __temperature self)
  ∧ (hi * 256 + lo < 20 ∨ 250 < hi * 256 + lo →
     (process_result (b0 :: b1 :: b2 :: 16 :: hi :: lo :: rest) self).1 = self).
Proof.
  intros Hhi Hlo.
  rewrite (process_result_field _ _ _ 16 _ "brightness" __validate_brightness
             (PyInt (hi * 256 + lo))); [|done|done|by apply validate_brightness_2].
  change (setattr "brightness" ?v) with (brightness_setter v).
  split; [|split].
  - destruct (decide (20 ≤ hi * 256 + lo ≤ 250)).
    + by rewrite brightness_setter_in_range.
    + by rewrite brightness_setter_out_of_range_small by lia.
  - intros Hr. by rewrite brightness_setter_in_range.
  - intros Hr. by rewrite brightness_setter_out_of_range_small by lia.
Qed.

Lemma process_result_brightness_witness :
  ((process_result [0x11; 0xff; 0x04; 16; 0; 100; 0] glow_session).2 = Ok tt
   ∧ __brightness (process_result [0x11; 0xff; 0x04; 16; 0; 100; 0] glow_session).1
     = PyInt 100)
  ∧ ((process_result [0x11; 0xff; 0x04; 16; 1; 0; 0] glow_session).2 = Ok tt
     ∧ (process_result [0x11; 0xff; 0x04; 16; 1; 0; 0] glow_session).1 = glow_session).
Proof.
  pose proof (process_result_brightness 0x11 0xff 0x04 0 100 [0] glow_session
                ltac:(lia) ltac:(lia)) as (Hok & Hin & _).
  pose proof (process_result_brightness 0x11 0xff 0x04 1 0 [0] glow_session
                ltac:(lia) ltac:(lia)) as (Hok' & _ & Hout).
  split; split.
  - exact Hok.
  - apply Hin. lia.
  - exact Hok'.
  - apply Hout. lia.
Defined.

(** X19.  A temperature report whose two payload bytes hold a number
    from 2700 to 6500 is handled without error, and the temperature of
    the object is then that number, with power and brightness as before;
    for any other number it raises [ValueError] and changes nothing. *)
Theorem process_result_temperature b0 b1 b2 hi lo rest self :
  0 ≤ hi < 256 → 0 ≤ lo < 256 →
  (2700 ≤ hi * 256 + lo ≤ 6500 →
     (process_result (b0 :: b1 :: b2 :: 32 :: hi :: lo :: rest) self).2 = Ok tt
     ∧ __temperature (process_result (b0 :: b1 :: b2 :: 32 :: hi :: lo :: rest) self).1
       = PyInt (hi * 256 + lo)
     ∧ __power (process_result (b0 :: b1 :: b2 :: 32 :: hi :: lo :: rest) self).1
       = __power self
     ∧ __brightness (process_result (b0 :: b1 :: b2 :: 32 :: hi :: lo :: rest) self).1
       = __brightness self)
  ∧ (hi * 256 + lo < 2700 ∨ 6500 < hi * 256 + lo →
     process_result (b0 :: b1 :: b2 :: 32 :: hi :: lo :: rest) self
     = (self, Raise ValueError)).
Proof.
  intros Hhi Hlo.
  rewrite (process_result_field _ _ _ 32 _ "temperature" __validate_temperature
             (PyInt (hi * 256 + lo))); [|done|done|by apply validate_temperature_2].
  change (setattr "temperature" ?v) with (temperature_setter v).
  split; intros Hr.
  - by rewrite temperature_setter_in_range.
  - by apply temperature_setter_out_of_range.
Qed.

Lemma process_result_temperature_witness :
  ((process_result [0x11; 0xff; 0x04; 32; 0x0b; 0xb8; 0] glow_session).2 = Ok tt
   ∧ __temperature (process_result [0x11; 0xff; 0x04; 32; 0x0b; 0xb8; 0] glow_session).1
     = PyInt 3000)
  ∧ process_result [0x11; 0xff; 0x04; 32; 0; 0; 0] glow_session
    = (glow_session, Raise ValueError).
Proof.
  pose proof (process_result_temperature 0x11 0xff 0x04 0x0b 0xb8 [0] glow_session
                ltac:(lia) ltac:(lia)) as (Hin & _).
  pose proof (process_result_temperature 0x11 0xff 0x04 0 0 [0] glow_session
                ltac:(lia) ltac:(lia)) as (_ & Hout).
  split; [split|].
  - apply Hin. lia.
  - apply Hin. lia.
  - apply Hout. lia.
Defined.

(** X20.  A power report whose first payload byte is 0 or 1 is handled
    without error, and the power of the object is then [False] for 0 and
    [True] for 1, with brightness and temperature as before; any other
    byte raises [RuntimeError] and a missing payload raises
    [IndexError], both without changing anything. *)
Theorem process_result_power b0 b1 b2 b rest self :
  (b = 0 ∨ b = 1 →
     (process_result (b0 :: b1 :: b2 :: 0 :: b :: rest) self).2 = Ok tt
     ∧ __power (process_result (b0 :: b1 :: b2 :: 0 :: b :: rest) self).1
       = PyBool (bool_decide (b = 1))
     ∧ __brightness (process_result (b0 :: b1 :: b2 :: 0 :: b :: rest) self).1
       = __brightness self
     ∧ __temperature (process_result (b0 :: b1 :: b2 :: 0 :: b :: rest) self).1
       = __temperature self)
  ∧ (b ≠ 0 → b ≠ 1 →
     process_result (b0 :: b1 :: b2 :: 0 :: b :: rest) self = (self, Raise RuntimeError))
  ∧ process_result [b0; b1; b2; 0] self = (self, Raise IndexError).
Proof.
  split; [|split].
  - intros [-> | ->].
    + by rewrite (process_result_field _ _ _ 0 _ "power" __validate_power (PyBool false)).
    + by rewrite (process_result_field _ _ _ 0 _ "power" __validate_power (PyBool true)).
  - intros H0 H1.
    rewrite (process_result_field_error _ _ _ 0 _ "power" __validate_power RuntimeError);
      [done|done|done|].
    unfold __validate_power. simpl. by rewrite decide_True.
  - by rewrite (process_result_field_error _ _ _ 0 _ "power" __validate_power IndexError).
Qed.

(** ** The polling loop *)

Section LoopMore.

Lemma test_inputs_app_raise before after self self' e :
  test_inputs before self = (self', Raise e) →
  test_inputs (before ++ after) self = (self', Raise e).
Proof.
  revert self. induction before as [|r before IH]; intros self H; simpl in *.
  - done.
  - destruct r as [result| |]; [| by apply IH | done].
    unfold mbind, M_bind in *.
    destruct (process_result result self) as [self1 [[]|e1]]; [by apply IH | done].
Qed.

Lemma test_inputs_state_ok reads self :
  state_ok self → state_ok (test_inputs reads self).1.
Proof.
  revert self. induction reads as [|r reads IH]; intros self H; simpl; [done|].
  destruct r as [result| |]; [|by apply IH|done].
  unfold mbind, M_bind.
  pose proof (process_result_state_ok result self H) as H1.
  destruct (process_result result self) as [self1 [[]|e1]]; simpl in *; [by apply IH|done].
Qed.

Lemma accepted_report_ok result self :
  accepted_report result → (process_result result self).2 = Ok tt.
Proof.
  intros [b rest Hb | hi lo rest Hhi Hlo | hi lo rest Hhi Hlo Hr].
  - destruct Hb as [-> | ->]; reflexivity.
  - rewrite (process_result_field _ _ _ 16 _ "brightness" __validate_brightness
               (PyInt (hi * 256 + lo))); [|done|done|by apply validate_brightness_2].
    change (setattr "brightness" ?v) with (brightness_setter v).
    destruct (decide (20 ≤ hi * 256 + lo ≤ 250)).
    + by rewrite brightness_setter_in_range.
    + by rewrite brightness_setter_out_of_range_small by lia.
  - rewrite (process_result_field _ _ _ 32 _ "temperature" __validate_temperature
               (PyInt (hi * 256 + lo))); [|done|done|by apply validate_temperature_2].
    change (setattr "temperature" ?v) with (temperature_setter v).
    by rewrite temperature_setter_in_range.
Qed.

End LoopMore.

(** X21.  The loop handles its reads one after the other: once a first
    run of reads has gone well the rest is handled from the state they
    left, and once a read has raised nothing that comes after it changes
    the state or the exception. *)
Theorem test_inputs_sequence before after self self' :
  (test_inputs before self = (self', Ok tt) →
   test_inputs (before ++ after) self = test_inputs after self')
  ∧ (∀ e, test_inputs before self = (self', Raise e) →
          test_inputs (before ++ after) self = (self', Raise e)).
Proof.
  split; [apply test_inputs_app | intros e; apply test_inputs_app_raise].
Qed.

Lemma test_inputs_sequence_witness :
  test_inputs ([ReadData [0x11; 0xff; 0x04; 0; 1]] ++ [ReadData [0x11; 0xff; 0x04; 16; 0; 100]])
    glow_session
  = test_inputs [ReadData [0x11; 0xff; 0x04; 16; 0; 100]]
      (set___power (PyBool true) glow_session)
  ∧ test_inputs ([ReadData [0x11; 0xff; 0x04; 32; 0; 0]] ++ [ReadData [0x11; 0xff; 0x04; 0; 1]])
      glow_session
    = (glow_session, Raise ValueError).
Proof.
  split.
  - apply (proj1 (test_inputs_sequence [ReadData [0x11; 0xff; 0x04; 0; 1]] _
                    glow_session (set___power (PyBool true) glow_session))).
    reflexivity.
  - apply (proj2 (test_inputs_sequence [ReadData [0x11; 0xff; 0x04; 32; 0; 0]] _
                    glow_session glow_session) ValueError).
    reflexivity.
Defined.

(** X22.  Timeouts are invisible: any number of reads that all time out
    leaves the session as it was, with the loop still polling. *)
Theorem test_inputs_timeouts n self :
  test_inputs (replicate n ReadTimeout) self = (self, Ok tt).
Proof. induction n as [|n IH]; [done | exact IH]. Qed.

(** X23.  A read that fails with a USB error other than a timeout ends
    the loop with that error, the session being as the earlier reads
    left it. *)
Theorem test_inputs_usb_error before after self self' :
  test_inputs before self = (self', Ok tt) →
  test_inputs (before ++ ReadError :: after) self = (self', Raise USBError).
Proof. intros H. by rewrite (test_inputs_app _ _ _ _ H). Qed.

Lemma test_inputs_usb_error_witness :
  test_inputs ([ReadTimeout; ReadData [0x11; 0xff; 0x04; 0; 1]]
                 ++ ReadError :: [ReadData [0x11; 0xff; 0x04; 0; 0]]) glow_session
  = (set___power (PyBool true) glow_session, Raise USBError).
Proof.
  apply (test_inputs_usb_error [ReadTimeout; ReadData [0x11; 0xff; 0x04; 0; 1]]).
  reflexivity.
Defined.

(** X24.  The loop keeps the state invariant: from a state whose power
    is [None] or a bool, whose brightness is [None] or an int from 20 to
    250 and whose temperature is [None] or within 2700 to 6500, any
    sequence of reads, whether the loop is left by an exception or not,
    ends in such a state. *)
Theorem test_inputs_keeps_invariant reads self :
  state_ok self → state_ok (test_inputs reads self).1.
Proof. apply test_inputs_state_ok. Qed.

Lemma test_inputs_keeps_invariant_witness :
  state_ok (test_inputs [ReadData [0x11; 0xff; 0x04; 16; 0; 100];
                         ReadData [0x11; 0xff; 0x04; 32; 0; 0]] glow_session).1.
Proof.
  apply (test_inputs_keeps_invariant _ glow_session).
  repeat split; by left.
Defined.

(** X25.  Reads that are timeouts or accepted reports never end the
    loop: after any number of them it is still polling. *)
Theorem test_inputs_accepted reads self :
  Forall accepted_read reads →
  (test_inputs reads self).2 = Ok tt.
Proof.
  intros H. revert self. induction H as [|r reads Hr _ IH]; intros self; [done|].
  destruct r as [result| |]; simpl in *; [|apply IH|done].
  unfold mbind, M_bind.
  pose proof (accepted_report_ok result self Hr) as Hok.
  destruct (process_result result self) as [self1 [[]|e1]]; simpl in *; [apply IH|done].
Qed.

Lemma test_inputs_accepted_witness :
  (test_inputs [ReadTimeout; ReadData [0x11; 0xff; 0x04; 0; 1; 0];
                ReadData [0x11; 0xff; 0x04; 32; 0x0b; 0xb8]] glow_session).2 = Ok tt.
Proof.
  apply test_inputs_accepted.
  repeat constructor; lia.
Defined.
